(** * WormBait data layer (WormCSV.py): a shallow embedding and its properties

    The module under study has three classes: [CuffLinkDatabase] (reads the
    CuffLink CSV file), [WormData] (collects the fields of one gene from the
    WormBase REST API) and [OutputCSV] (writes the collected records).

    The repository holds two renditions of the module.  The top level of
    this file embeds [python2/WormCSV.py], the documented one (it carries
    the prefix guard, the [db_id] handling of the writer and the run-time
    switch between Python 2 and 3).  [Module Py3] embeds what
    [python3/WormCSV.py] does differently.  Properties are stated of both
    wherever both have the code in question. *)

From Stdlib Require Import String Ascii ZArith List Bool Lia.
From stdpp Require Import base option list gmap strings fin_maps.
Import ListNotations.

Local Open Scope string_scope.
Local Open Scope list_scope.
Set Warnings "-register-all".

(** ** Python values, exceptions and results *)

(** The exceptions the module can raise.  [ConnectionError] stands for
    whatever [requests.get] raises when the transport fails, [IOError] for
    what [open] raises when the file cannot be opened for writing. *)
Inductive exn : Type :=
| TypeError
| KeyError
| IndexError
| AttributeError
| ValueError
| StopIteration
| ConnectionError
| IOError.

(** The outcome of evaluating a Python expression. *)
Inductive res (A : Type) : Type :=
| Ok (a : A)
| Raise (e : exn).
Arguments Ok {A} a.
Arguments Raise {A} e.

(** The values that flow through the module: what [r.json()] can return,
    and what is stored in [self.data].  A decoded JSON object is kept as the
    list of its members; [assoc] reads the first binding of a key.  For a
    number only being zero or not is ever observed. *)
Inductive value : Type :=
| VNone
| VBool (b : bool)
| VNum (n : Z)
| VStr (s : string)
| VList (l : list value)
| VDict (d : list (string * value)).

Fixpoint assoc {A : Type} (k : string) (d : list (string * A)) : option A :=
  match d with
  | [] => None
  | (k', v) :: d' => if String.eqb k k' then Some v else assoc k d'
  end.

(** [bool(v)] *)
Definition truthy (v : value) : bool :=
  match v with
  | VNone => false
  | VBool b => b
  | VNum n => negb (Z.eqb n 0)
  | VStr s => negb (String.eqb s "")
  | VList l => match l with [] => false | _ => true end
  | VDict d => match d with [] => false | _ => true end
  end.

(** [sub in s] on two strings *)
Definition substring_of (sub s : string) : bool :=
  match String.index 0 sub s with Some _ => true | None => false end.

Definition is_str (k : string) (v : value) : bool :=
  match v with VStr s => String.eqb k s | _ => false end.

(** [k in v] for a string [k] *)
Definition contains (k : string) (v : value) : res bool :=
  match v with
  | VDict d => Ok (match assoc k d with Some _ => true | None => false end)
  | VList l => Ok (existsb (is_str k) l)
  | VStr s => Ok (substring_of k s)
  | VNone | VBool _ | VNum _ => Raise TypeError
  end.

(** [v[k]] for a string [k] *)
Definition getitem (v : value) (k : string) : res value :=
  match v with
  | VDict d => match assoc k d with Some x => Ok x | None => Raise KeyError end
  | VNone | VBool _ | VNum _ | VStr _ | VList _ => Raise TypeError
  end.

(** A text is kept as its UTF-8 bytes.  Python runs over a text one code
    point at a time: a code point is a byte together with the continuation
    bytes (10xxxxxx) that follow it. *)
Definition continuation (c : ascii) : bool :=
  match c with
  | Ascii _ _ _ _ _ _ b6 b7 => b7 && negb b6
  end.

Definition continues (s : string) : bool :=
  match s with
  | String c _ => continuation c
  | EmptyString => false
  end.

(** the code points of a text, each as a text of its own *)
Fixpoint chars (s : string) : list string :=
  match s with
  | EmptyString => []
  | String c s' =>
      match chars s' with
      | x :: l =>
          if continues s' then String c x :: l
          else String c EmptyString :: x :: l
      | [] => [String c EmptyString]
      end
  end.

(** the items [for item in v] runs over *)
Definition iterate (v : value) : res (list value) :=
  match v with
  | VList l => Ok l
  | VDict d => Ok (map (fun kv => VStr (fst kv)) d)
  | VStr s => Ok (map VStr (chars s))
  | VNone | VBool _ | VNum _ => Raise TypeError
  end.

(** [len(v)] *)
Definition len (v : value) : res nat :=
  match v with
  | VList l => Ok (length l)
  | VDict d => Ok (length d)
  | VStr s => Ok (length (chars s))
  | VNone | VBool _ | VNum _ => Raise TypeError
  end.

(** the strings of a list of values, when all of them are strings *)
Fixpoint strings_of (l : list value) : option (list string) :=
  match l with
  | [] => Some []
  | VStr s :: l' =>
      match strings_of l' with Some ss => Some (s :: ss) | None => None end
  | _ :: _ => None
  end.

(** [sep.join(v)]: every item has to be a string *)
Definition join (sep : string) (v : value) : res string :=
  match iterate v with
  | Raise e => Raise e
  | Ok items =>
      match strings_of items with
      | Some ss => Ok (String.concat sep ss)
      | None => Raise TypeError
      end
  end.

(** [v.startswith(p)]: only strings have the method *)
Definition startswith (v : value) (p : string) : res bool :=
  match v with
  | VStr s => Ok (String.prefix p s)
  | _ => Raise AttributeError
  end.

(** [a + b] with [a] a string *)
Definition str_add (a : string) (b : value) : res string :=
  match b with
  | VStr s => Ok (a +:+ s)
  | _ => Raise TypeError
  end.

(** what the spec calls a scalar: a string or [None] *)
Definition scalar (v : value) : bool :=
  match v with
  | VNone | VStr _ => true
  | _ => false
  end.

(** ** Computations with state and exceptions *)

Definition M (St A : Type) : Type := St -> res A * St.

Definition ret {St A : Type} (a : A) : M St A := fun s => (Ok a, s).

Definition raise {St A : Type} (e : exn) : M St A := fun s => (Raise e, s).

Definition bind {St A B : Type} (m : M St A) (f : A -> M St B) : M St B :=
  fun s =>
    match m s with
    | (Ok a, s') => f a s'
    | (Raise e, s') => (Raise e, s')
    end.

Definition lift {St A : Type} (r : res A) : M St A := fun s => (r, s).

Declare Scope py_scope.
Delimit Scope py_scope with py.
Notation "x <- m ;; k" := (bind m (fun x => k))
  (at level 62, m at next level, right associativity) : py_scope.
Notation "m ;;; k" := (bind m (fun _ => k))
  (at level 62, right associativity) : py_scope.
Local Open Scope py_scope.

(** [if c then body] *)
Definition when {St : Type} (c : bool) (body : M St unit) : M St unit :=
  if c then body else ret tt.

(** [a and b], evaluated left to right, [b] only when [a] holds *)
Definition and_then {St : Type} (a b : M St bool) : M St bool :=
  x <- a ;; if x then b else ret false.

(** [for x in l: body x] *)
Fixpoint for_each {St A : Type} (l : list A) (body : A -> M St unit) : M St unit :=
  match l with
  | [] => ret tt
  | x :: l' => body x ;;; for_each l' body
  end.

(** ** class CuffLinkDatabase *)

(** One row of the CuffLink file, [dict(zip(headers, row))]: the pairs are
    entered from left to right, so a repeated header keeps its last cell;
    [zip] stops at the shorter of the two lists. *)
Definition dict_zip (headers row : list string) : gmap string string :=
  fold_left (fun d kv => <[fst kv := snd kv]> d) (combine headers row) ∅.

(** The loop [for row in reader: self.data[row[0]] = dict(zip(headers,row))].
    [row[0]] raises [IndexError] on an empty row. *)
Fixpoint load_rows (headers : list string) (rows : list (list string))
    (data : gmap string (gmap string string))
    : res (gmap string (gmap string string)) :=
  match rows with
  | [] => Ok data
  | row :: rows' =>
      match row with
      | [] => Raise IndexError
      | key :: _ => load_rows headers rows' (<[key := dict_zip headers row]> data)
      end
  end.

(** [CuffLinkDatabase.__init__]: the argument is the sequence of rows that
    [csv.reader] yields for the file.  [reader.next()] raises
    [StopIteration] when there is no row at all. *)
Definition CuffLinkDatabase (rows : list (list string))
    : res (gmap string (gmap string string)) :=
  match rows with
  | [] => Raise StopIteration
  | headers :: rest => load_rows headers rest ∅
  end.

(** [CuffLinkDatabase.get]: [None] for an unknown key *)
Definition get (database : gmap string (gmap string string)) (dbId : string)
    : option (gmap string string) :=
  database !! dbId.

(** ** class WormData *)

(** What one HTTP GET can come to: [requests.get] raises, or it returns a
    response whose [json()] raises, or one whose [json()] is a value. *)
Inductive reply : Type :=
| Unreachable
| Undecodable
| Body (j : value).

(** [r.json()]: the decoded body, unless decoding raises *)
Definition json (r : reply) : option value :=
  match r with
  | Body j => Some j
  | Unreachable | Undecodable => None
  end.

(** The object state next to the requests made so far, oldest first. *)
Record wstate : Type := WState {
  trace : list string;
  data : gmap string value
}.

Definition GENE_BASE : string := "http://api.wormbase.org/rest/field/gene".
Definition PROTEIN_BASE : string := "http://api.wormbase.org/rest/field/protein".

(** [self.data[k] = v] *)
Definition set_data (k : string) (v : value) : M wstate unit :=
  fun s => (Ok tt, WState (trace s) (<[k := v]> (data s))).

(** [self.data[k]] *)
Definition get_data (k : string) : M wstate value :=
  fun s => match data s !! k with
           | Some v => (Ok v, s)
           | None => (Raise KeyError, s)
           end.

(** [self.data[k].append(v)] *)
Definition append_data (k : string) (v : value) : M wstate unit :=
  l <- get_data k ;;
  match l with
  | VList xs => set_data k (VList (xs ++ [v]))
  | _ => raise AttributeError
  end.

Section WormData.

(** The remote API: the reply to a GET of a URL. *)
Variable net : string -> reply.

(** The local CuffLink data. *)
Variable database : gmap string (gmap string string).

(** [requests.get(url, headers=self.headers)] *)
Definition requests_get (url : string) : M wstate reply :=
  fun s =>
    let s' := WState (trace s ++ [url]) (data s) in
    match net url with
    | Unreachable => (Raise ConnectionError, s')
    | r => (Ok r, s')
    end.

(** [baseUrl + '/' + id + '/' + datum] *)
Definition endpoint (baseUrl : string) (id : value) (datum : string) : res string :=
  match str_add (baseUrl +:+ "/") id with
  | Ok u => Ok (u +:+ "/" +:+ datum)
  | Raise e => Raise e
  end.

(** [WormData.fetch] *)
Definition fetch (baseUrl : string) (id : value) (datum : string) : M wstate value :=
  url <- lift (endpoint baseUrl id datum) ;;
  r <- requests_get url ;;
  match json r with
  | None => ret VNone
  | Some j =>
      c <- and_then (lift (contains datum j))
                    (jd <- lift (getitem j datum) ;; lift (contains "data" jd)) ;;
      if c then
        jd <- lift (getitem j datum) ;; lift (getitem jd "data")
      else ret VNone
  end.

(** [WormData.joinIfExtant] *)
Definition joinIfExtant (datum : string) : M wstate unit :=
  v <- get_data datum ;;
  n <- lift (len v) ;;
  if Nat.eqb n 0 then set_data datum VNone
  else
    v' <- get_data datum ;;
    s <- lift (join ", " v') ;;
    set_data datum (VStr s).

(** [x and k in x] *)
Definition nonempty_with (k : string) (x : value) : M wstate bool :=
  and_then (ret (truthy x)) (lift (contains k x)).

(** the [up/down] lookup, lines 183-184 *)
Definition up_down (dbId : option string) : M wstate unit :=
  match dbId with
  | None => ret tt
  | Some i =>
      when (negb (String.eqb i ""))
        (match get database i with
         | None => raise TypeError
         | Some row =>
             match row !! "log2(fold_change)" with
             | Some c => set_data "up/down" (VStr c)
             | None => raise KeyError
             end
         end)
  end.

(** the [gene_models] lookup, lines 199-205 *)
Definition protein_ids (geneID : string) : M wstate unit :=
  geneModels <- fetch GENE_BASE (VStr geneID) "gene_models" ;;
  set_data "protein_id" (VList []) ;;;
  c <- nonempty_with "table" geneModels ;;
  when c
    (table <- lift (getitem geneModels "table") ;;
     items <- lift (iterate table) ;;
     for_each items (fun item =>
       c' <- and_then (nonempty_with "protein" item)
                      (p <- lift (getitem item "protein") ;; lift (contains "id" p)) ;;
       when c'
         (p <- lift (getitem item "protein") ;;
          i <- lift (getitem p "id") ;;
          append_data "protein_id" i))).

(** the [gene_class] lookup, lines 208-210 *)
Definition gene_class (geneID : string) : M wstate unit :=
  geneClass <- fetch GENE_BASE (VStr geneID) "gene_class" ;;
  c <- and_then (nonempty_with "tag" geneClass)
                (t <- lift (getitem geneClass "tag") ;; lift (contains "label" t)) ;;
  when c
    (t <- lift (getitem geneClass "tag") ;;
     l <- lift (getitem t "label") ;;
     set_data "gene_class" l).

(** one of the three ortholog lookups, lines 212-236 *)
Definition orthologs (geneID datum : string) : M wstate unit :=
  found <- fetch GENE_BASE (VStr geneID) datum ;;
  set_data datum (VList []) ;;;
  when (truthy found)
    (items <- lift (iterate found) ;;
     for_each items (fun item =>
       o <- lift (getitem item "ortholog") ;;
       l <- lift (getitem o "label") ;;
       append_data datum l)) ;;;
  joinIfExtant datum.

(** one [best_human_match] lookup and what it adds, lines 260-262 *)
Definition best_human_match (proteinID : value) : M wstate unit :=
  bestHumanMatch <- fetch PROTEIN_BASE proteinID "best_human_match" ;;
  c <- nonempty_with "description" bestHumanMatch ;;
  when c
    (d <- lift (getitem bestHumanMatch "description") ;;
     append_data "best_human_ortholog" d).

(** [isinstance(v, str)].  The one place python2/WormCSV.py asks this,
    line 251, the value is the list that line 201 has created. *)
Definition isinstance_str (v : value) : bool :=
  match v with VStr _ => true | _ => false end.

(** the [best_human_ortholog] step, lines 238-266 *)
Definition best_human_ortholog : M wstate unit :=
  set_data "best_human_ortholog" (VList []) ;;;
  p <- get_data "protein_id" ;;
  let isSingular := isinstance_str p in
  p1 <- get_data "protein_id" ;;
  if truthy p1 && negb isSingular then
    p2 <- get_data "protein_id" ;;
    ids <- lift (iterate p2) ;;
    for_each ids best_human_match
  else
    p3 <- get_data "protein_id" ;;
    when (truthy p3)
      (p4 <- get_data "protein_id" ;; best_human_match p4).

(** [WormData.populate] *)
Definition populate (dbId : option string) (geneID : string) : M wstate unit :=
  when (negb (String.eqb geneID "") && String.prefix "WBGene" geneID)
    (up_down dbId ;;;
     sequence <- fetch GENE_BASE (VStr geneID) "sequence_name" ;;
     set_data "sequence_name" sequence ;;;
     description <- fetch GENE_BASE (VStr geneID) "concise_description" ;;
     text <- lift (getitem description "text") ;;
     set_data "description" text ;;;
     protein_ids geneID ;;;
     gene_class geneID ;;;
     orthologs geneID "human_orthologs" ;;;
     orthologs geneID "nematode_orthologs" ;;;
     orthologs geneID "other_orthologs" ;;;
     best_human_ortholog ;;;
     joinIfExtant "protein_id" ;;;
     joinIfExtant "best_human_ortholog").

(** [WormData.__init__]: the state an object is born with, then [populate] *)
Definition WormData (dbId : option string) (geneID : string) : M wstate unit :=
  fun s =>
    (set_data "gene_id" (VStr geneID) ;;; populate dbId geneID)
      (WState (trace s) ∅).

(** [WormData.describe], for an object in state [s] *)
Definition describe (s : wstate) : gmap string value := data s.

End WormData.

(** ** class OutputCSV *)

(** Python lists are objects: the list of column titles lives in a store and
    is known by its reference.  Next to the lists the world holds the files,
    each with the lines written to it, a line being the cells handed to the
    [csv] writer. *)
Definition ref : Type := nat.

Record world : Type := World {
  lists : gmap ref (list string);
  files : gmap string (list (list value))
}.

Record OutputCSV_obj : Type := {
  path : string;
  headers : ref
}.

(** [OutputCSV.__init__]: [self.headers = headers] keeps the reference it
    is given, it does not copy the list. *)
Definition OutputCSV (path : string) (headers : ref) : OutputCSV_obj :=
  {| path := path; headers := headers |}.

(** the list behind a reference *)
Definition deref (r : ref) : M world (list string) :=
  fun w => match lists w !! r with
           | Some l => (Ok l, w)
           | None => (Raise AttributeError, w)
           end.

(** [l] without the first [x], if [x] occurs *)
Fixpoint remove_first (x : string) (l : list string) : option (list string) :=
  match l with
  | [] => None
  | y :: l' =>
      if String.eqb x y then Some l'
      else match remove_first x l' with
           | Some r => Some (y :: r)
           | None => None
           end
  end.

(** [r.remove(x)]: changes the list object itself, [ValueError] when [x] is
    not in it *)
Definition list_remove (r : ref) (x : string) : M world unit :=
  l <- deref r ;;
  match remove_first x l with
  | Some l' => fun w => (Ok tt, World (<[r := l']> (lists w)) (files w))
  | None => raise ValueError
  end.

(** [w.describe() and 'db_id' in w.describe() and
     w.describe()['db_id'].startswith('XLOC')] *)
Definition has_XLOC_id (w : gmap string value) : res bool :=
  if Nat.eqb (size w) 0 then Ok false
  else match w !! "db_id" with
       | None => Ok false
       | Some v => startswith v "XLOC"
       end.

(** the loop of lines 77-80, started with [exclusivelyWBIds = flag] *)
Fixpoint exclusivelyWBIds (flag : bool) (ws : list (gmap string value)) : res bool :=
  match ws with
  | [] => Ok flag
  | w :: ws' =>
      if flag then
        match has_XLOC_id w with
        | Ok true => exclusivelyWBIds false ws'
        | Ok false => exclusivelyWBIds flag ws'
        | Raise e => Raise e
        end
      else exclusivelyWBIds flag ws'
  end.

(** [open(path, 'w')] and [open(path, 'wb')]: [can_open] tells which paths
    the file system lets the program open for writing.  Opening empties the
    file, or creates it. *)
Definition open_file (can_open : string -> bool) (path : string) : M world unit :=
  fun w =>
    if can_open path then (Ok tt, World (lists w) (<[path := []]> (files w)))
    else (Raise IOError, w).

(** one more line in an open file *)
Definition write_line (path : string) (line : list value) : M world unit :=
  fun w =>
    (Ok tt, World (lists w) (<[path := default [] (files w !! path) ++ [line]]> (files w))).

(** The line [DictWriter.writerow] makes of a record: a key outside
    [fieldnames] is refused with [ValueError], before anything is written;
    a field the record lacks gives an empty cell. *)
Definition writerow (fieldnames : list string) (w : gmap string value) : res (list value) :=
  if forallb (fun k => existsb (String.eqb k) fieldnames) (map fst (map_to_list w))
  then Ok (map (fun k => default (VStr "") (w !! k)) fieldnames)
  else Raise ValueError.

(** [OutputCSV.write]; the two branches on [sys.version_info] differ only in
    the mode the file is opened with.  The header is settled before the
    file is opened, and the lines go to the file one by one. *)
Definition write (can_open : string -> bool) (self : OutputCSV_obj)
    (listOfWormDatas : list (gmap string value)) : M world unit :=
  flag <- lift (exclusivelyWBIds true listOfWormDatas) ;;
  when flag
    (list_remove (headers self) "db_id" ;;;
     list_remove (headers self) "up/down") ;;;
  open_file can_open (path self) ;;;
  fieldnames <- deref (headers self) ;;
  write_line (path self) (map VStr fieldnames) ;;;
  for_each listOfWormDatas (fun wormData =>
    row <- lift (writerow fieldnames wormData) ;;
    write_line (path self) row).

(** ** The older rendition, python3/WormCSV.py

    [CuffLinkDatabase], [fetch], [get] and [describe] are the same there.
    [populate] has no prefix guard and no guard on the record identifier, it
    stores the [gene_class] answer as it comes, and it joins [protein_id]
    before the [best_human_ortholog] step. *)
Module Py3.
Section WormData.

Variable net : string -> reply.
Variable database : gmap string (gmap string string).

(** the four lines that close each collected list, e.g. lines 69-72 *)
Definition join_or_none (datum : string) : M wstate unit :=
  v <- get_data datum ;;
  n <- lift (len v) ;;
  if Nat.eqb n 0 then set_data datum VNone
  else
    v' <- get_data datum ;;
    s <- lift (join ", " v') ;;
    set_data datum (VStr s).

(** line 55 *)
Definition up_down (xlocID : option string) : M wstate unit :=
  match xlocID with
  | None => raise TypeError
  | Some i =>
      match get database i with
      | None => raise TypeError
      | Some row =>
          match row !! "log2(fold_change)" with
          | Some c => set_data "up/down" (VStr c)
          | None => raise KeyError
          end
      end
  end.

(** lines 63-72 *)
Definition protein_ids (geneID : string) : M wstate unit :=
  geneModels <- fetch net GENE_BASE (VStr geneID) "gene_models" ;;
  set_data "protein_id" (VList []) ;;;
  table <- lift (getitem geneModels "table") ;;
  items <- lift (iterate table) ;;
  for_each items (fun item =>
    c' <- and_then (nonempty_with "protein" item)
                   (p <- lift (getitem item "protein") ;; lift (contains "id" p)) ;;
    when c'
      (p <- lift (getitem item "protein") ;;
       i <- lift (getitem p "id") ;;
       append_data "protein_id" i)) ;;;
  join_or_none "protein_id".

(** lines 78-109, once per ortholog field *)
Definition orthologs (geneID datum : string) : M wstate unit :=
  found <- fetch net GENE_BASE (VStr geneID) datum ;;
  set_data datum (VList []) ;;;
  when (truthy found)
    (items <- lift (iterate found) ;;
     for_each items (fun item =>
       o <- lift (getitem item "ortholog") ;;
       l <- lift (getitem o "label") ;;
       append_data datum l)) ;;;
  join_or_none datum.

(** [hasattr(v, '__len__')] *)
Definition has_len (v : value) : bool :=
  match v with
  | VStr _ | VList _ | VDict _ => true
  | VNone | VBool _ | VNum _ => false
  end.

(** lines 111-128 *)
Definition best_human_ortholog : M wstate unit :=
  set_data "best_human_ortholog" (VList []) ;;;
  p <- get_data "protein_id" ;;
  let isSingular := has_len p && negb (isinstance_str p) in
  (if negb isSingular then
     p2 <- get_data "protein_id" ;;
     ids <- lift (iterate p2) ;;
     for_each ids (best_human_match net)
   else
     p4 <- get_data "protein_id" ;; best_human_match net p4) ;;;
  join_or_none "best_human_ortholog".

(** [WormData.populate] of python3/WormCSV.py *)
Definition populate (xlocID : option string) (geneID : string) : M wstate unit :=
  up_down xlocID ;;;
  sequence <- fetch net GENE_BASE (VStr geneID) "sequence_name" ;;
  set_data "sequence_name" sequence ;;;
  description <- fetch net GENE_BASE (VStr geneID) "concise_description" ;;
  text <- lift (getitem description "text") ;;
  set_data "description" text ;;;
  protein_ids geneID ;;;
  geneClass <- fetch net GENE_BASE (VStr geneID) "gene_class" ;;
  set_data "gene_class" geneClass ;;;
  orthologs geneID "human_orthologs" ;;;
  orthologs geneID "nematode_orthologs" ;;;
  orthologs geneID "other_orthologs" ;;;
  best_human_ortholog.

Definition WormData (xlocID : option string) (geneID : string) : M wstate unit :=
  fun s =>
    (set_data "gene_id" (VStr geneID) ;;; populate xlocID geneID)
      (WState (trace s) ∅).

End WormData.

(** [OutputCSV.write] of python3/WormCSV.py, lines 32-37.  The file is
    opened in binary mode; [binary_ok] tells whether the [csv] writer takes
    such a file (Python 2) or refuses its first line with [TypeError]
    (Python 3), the file then opened and empty. *)
Definition write (can_open : string -> bool) (binary_ok : bool) (self : OutputCSV_obj)
    (listOfWormDatas : list (gmap string value)) : M world unit :=
  open_file can_open (path self) ;;;
  fieldnames <- deref (headers self) ;;
  (if binary_ok then ret tt else raise TypeError) ;;;
  write_line (path self) (map VStr fieldnames) ;;;
  for_each listOfWormDatas (fun wormData =>
    row <- lift (writerow fieldnames wormData) ;;
    write_line (path self) row).

End Py3.

(** ** Vocabulary for the statements *)

(** the URL of a lookup *)
Definition url_of (baseUrl id datum : string) : string :=
  ((baseUrl +:+ "/") +:+ id) +:+ "/" +:+ datum.

(** the state after one more request *)
Definition logged (url : string) (s : wstate) : wstate :=
  WState (trace s ++ [url]) (data s).

(** what [fetch] hands back, read off a run of [fetch] itself *)
Definition response (net : string -> reply) (baseUrl : string) (id : value)
    (datum : string) : res value :=
  fst (fetch net baseUrl id datum (WState [] ∅)).

(** the last row of the file whose first cell is [key] *)
Fixpoint last_row (key : string) (rows : list (list string)) : option (list string) :=
  match rows with
  | [] => None
  | row :: rows' =>
      match last_row key rows' with
      | Some r => Some r
      | None =>
          match row with
          | k :: _ => if String.eqb k key then Some row else None
          | [] => None
          end
      end
  end.

(** [wp m Q s]: if [m], started in [s], returns, then [Q] holds of what it
    returns and of the state it leaves *)
Definition wp {St A : Type} (m : M St A) (Q : A -> St -> Prop) (s : St) : Prop :=
  forall a s', m s = (Ok a, s') -> Q a s'.

(** [keeps P m]: a property [P] of the collected data that holds before
    [m] holds after it, however [m] ends *)
Definition keeps {A : Type} (P : gmap string value -> Prop) (m : M wstate A) : Prop :=
  forall s r s', P (data s) -> m s = (r, s') -> P (data s').

(** every stored value is a string or [None], but for the fields in [L] *)
Definition flat_but (L : list string) (d : gmap string value) : Prop :=
  forall k v, d !! k = Some v -> scalar v = true \/ In k L.

(** the fields that hold whatever the server sent *)
Definition verbatim : list string := ["sequence_name"; "description"; "gene_class"].

(** what a loop collects when [f] tells what an item adds, if anything *)
Fixpoint collect {A : Type} (f : A -> res (option value)) (items : list A)
    : res (list value) :=
  match items with
  | [] => Ok []
  | x :: items' =>
      match f x with
      | Raise e => Raise e
      | Ok o =>
          match collect f items' with
          | Raise e => Raise e
          | Ok l => Ok (option_list o ++ l)
          end
      end
  end.

(** [item['ortholog']['label']] *)
Definition label_of (item : value) : res (option value) :=
  match getitem item "ortholog" with
  | Raise e => Raise e
  | Ok o => match getitem o "label" with
            | Raise e => Raise e
            | Ok l => Ok (Some l)
            end
  end.

(** the labels of the entries of an ortholog answer, in its order *)
Definition labels (found : value) : res (list value) :=
  if truthy found then
    match iterate found with
    | Raise e => Raise e
    | Ok items => collect label_of items
    end
  else Ok [].

(** the protein identifier of a row of the [gene_models] table, if it has one *)
Definition protein_of (item : value) : res (option value) :=
  if truthy item then
    match contains "protein" item with
    | Raise e => Raise e
    | Ok false => Ok None
    | Ok true =>
        match getitem item "protein" with
        | Raise e => Raise e
        | Ok p =>
            match contains "id" p with
            | Raise e => Raise e
            | Ok false => Ok None
            | Ok true =>
                match getitem p "id" with
                | Raise e => Raise e
                | Ok i => Ok (Some i)
                end
            end
        end
    end
  else Ok None.

(** the protein identifiers of a [gene_models] answer, in its order *)
Definition proteins (geneModels : value) : res (list value) :=
  if truthy geneModels then
    match contains "table" geneModels with
    | Raise e => Raise e
    | Ok false => Ok []
    | Ok true =>
        match getitem geneModels "table" with
        | Raise e => Raise e
        | Ok table =>
            match iterate table with
            | Raise e => Raise e
            | Ok items => collect protein_of items
            end
        end
    end
  else Ok [].

(** the description in the [best_human_match] answer for a protein, if any *)
Definition description_of (net : string -> reply) (proteinID : value)
    : res (option value) :=
  match response net PROTEIN_BASE proteinID "best_human_match" with
  | Raise e => Raise e
  | Ok m =>
      if truthy m then
        match contains "description" m with
        | Raise e => Raise e
        | Ok false => Ok None
        | Ok true =>
            match getitem m "description" with
            | Raise e => Raise e
            | Ok d => Ok (Some d)
            end
        end
      else Ok None
  end.

(** the entries joined by [", "], or [None] when there is none *)
Definition joined (entries : list string) : value :=
  match entries with
  | [] => VNone
  | _ :: _ => VStr (String.concat ", " entries)
  end.

(** what is asked of one ortholog field of the record [d] *)
Definition ortholog_field (net : string -> reply) (geneID datum : string)
    (d : gmap string value) : Prop :=
  exists found entries,
    response net GENE_BASE (VStr geneID) datum = Ok found
    /\ labels found = Ok (map VStr entries)
    /\ d !! datum = Some (joined entries).

(** what is asked of [protein_id] and [best_human_ortholog]: [items] are
    the identifiers the [best_human_match] lookups are made for *)
Definition protein_fields (net : string -> reply) (geneID : string)
    (items : list string -> list value) (d : gmap string value) : Prop :=
  exists geneModels ids descriptions,
    response net GENE_BASE (VStr geneID) "gene_models" = Ok geneModels
    /\ proteins geneModels = Ok (map VStr ids)
    /\ d !! "protein_id" = Some (joined ids)
    /\ collect (description_of net) (items ids) = Ok (map VStr descriptions)
    /\ d !! "best_human_ortholog" = Some (joined descriptions).

(** the identifiers python3/WormCSV.py makes its [best_human_match] lookups
    for: the characters of the joined [protein_id] *)
Definition characters (ids : list string) : list value :=
  map VStr (chars (String.concat ", " ids)).

(** the record carries an identifier of the CuffLink kind *)
Definition uses_XLOC (w : gmap string value) : Prop :=
  exists i, w !! "db_id" = Some (VStr i) /\ String.prefix "XLOC" i = true.

(** the identifier of the record, when it has one, is a string *)
Definition db_id_is_str (w : gmap string value) : Prop :=
  forall v, w !! "db_id" = Some v -> exists i, v = VStr i.

(** [l] without the first [x] *)
Fixpoint drop_first (x : string) (l : list string) : list string :=
  match l with
  | [] => []
  | y :: l' => if String.eqb x y then l' else y :: drop_first x l'
  end.

(** the header without the two columns of the CuffLink data *)
Definition trimmed (hs : list string) : list string :=
  drop_first "up/down" (drop_first "db_id" hs).

(** a store with one row *)
Definition one_row : gmap string (gmap string string) :=
  {[ "XLOC_000001" := {[ "log2(fold_change)" := "2.5" ]} ]}.

(** a server that answers every request with the same document: one gene
    with the given rows in its [gene_models] table *)
Definition server (rows : list value) (url : string) : reply :=
  Body (VDict
    [("sequence_name", VDict [("data", VStr "abc-1")]);
     ("concise_description", VDict [("data", VDict [("text", VStr "a protein")])]);
     ("gene_models", VDict [("data", VDict [("table", VList rows)])]);
     ("best_human_match", VDict [("data", VDict [("description", VStr "human X")])])]).

(** a row of the [gene_models] table for the protein [p] *)
Definition protein_row (p : string) : value :=
  VDict [("protein", VDict [("id", VStr p)])].

(** the answers of a server whose [concise_description] does not decode *)
Definition no_description (url : string) : reply :=
  if String.eqb url (url_of GENE_BASE "WBGene00001234" "concise_description")
  then Undecodable
  else server [protein_row "P"] url.


(** an entry of an ortholog answer *)
Definition ortholog_row (label : string) : value :=
  VDict [("ortholog", VDict [("label", VStr label)])].

(** a server that also lists two proteins and two human orthologs *)
Definition annotated (url : string) : reply :=
  Body (VDict
    [("sequence_name", VDict [("data", VStr "abc-1")]);
     ("concise_description", VDict [("data", VDict [("text", VStr "a protein")])]);
     ("gene_models",
      VDict [("data", VDict [("table", VList [protein_row "P"; protein_row "Q"])])]);
     ("human_orthologs",
      VDict [("data", VList [ortholog_row "A"; ortholog_row "B"])]);
     ("best_human_match", VDict [("data", VDict [("description", VStr "human X")])])]).

(** a server whose answers are nested where a string is expected *)
Definition nested (url : string) : reply :=
  Body (VDict
    [("sequence_name", VDict [("data", VDict [("label", VStr "abc-1")])]);
     ("concise_description",
      VDict [("data", VDict [("text", VList [VStr "a"; VStr "protein"])])]);
     ("gene_models",
      VDict [("data", VDict [("table", VList [protein_row "P"])])]);
     ("gene_class",
      VDict [("data", VDict [("tag", VDict [("label", VDict [("id", VStr "abc")])])])])]).

(** ** More of the module, and more vocabulary *)

(** [WormData.get], for an object in state [s]: the stored value, [None]
    for a field that is not there *)
Definition WormData_get (s : wstate) (datum : string) : value :=
  match data s !! datum with
  | Some v => v
  | None => VNone
  end.

(** [CuffLinkDatabase.getAll] *)
Definition getAll (database : gmap string (gmap string string))
    : gmap string (gmap string string) :=
  database.

(** the names under which [populate] and the constructor store values *)
Definition field_names : list string :=
  ["gene_id"; "up/down"; "sequence_name"; "description"; "protein_id";
   "gene_class"; "human_orthologs"; "nematode_orthologs"; "other_orthologs";
   "best_human_ortholog"].

(** the label of a [gene_class] answer, when it has a tag with a label *)
Definition class_label (geneClass : value) : res (option value) :=
  if truthy geneClass then
    match contains "tag" geneClass with
    | Raise e => Raise e
    | Ok false => Ok None
    | Ok true =>
        match getitem geneClass "tag" with
        | Raise e => Raise e
        | Ok t =>
            match contains "label" t with
            | Raise e => Raise e
            | Ok false => Ok None
            | Ok true =>
                match getitem t "label" with
                | Raise e => Raise e
                | Ok l => Ok (Some l)
                end
            end
        end
    end
  else Ok None.

(** [sends m urls]: a run of [m] that returns has sent the requests [urls],
    in this order, and no other *)
Definition sends {A : Type} (m : M wstate A) (urls : list string) : Prop :=
  forall s a s', m s = (Ok a, s') -> trace s' = trace s ++ urls.

(** the [sequence_name] field holds what its lookup returned *)
Definition sequence_field (net : string -> reply) (geneID : string)
    (d : gmap string value) : Prop :=
  exists sequence,
    response net GENE_BASE (VStr geneID) "sequence_name" = Ok sequence
    /\ d !! "sequence_name" = Some sequence.

(** the [description] field holds the [text] member of what its lookup
    returned *)
Definition description_field (net : string -> reply) (geneID : string)
    (d : gmap string value) : Prop :=
  exists description text,
    response net GENE_BASE (VStr geneID) "concise_description" = Ok description
    /\ getitem description "text" = Ok text
    /\ d !! "description" = Some text.

(** the line of cells for a record under a header: the empty string for a
    field the record lacks *)
Definition cells (fieldnames : list string) (w : gmap string value) : list value :=
  map (fun k => default (VStr "") (w !! k)) fieldnames.

(** every field of the record is a column of the header *)
Definition fits (fieldnames : list string) (w : gmap string value) : Prop :=
  forall k, is_Some (w !! k) -> In k fieldnames.

(** how the loop over the records ends: with the first refusal, if any *)
Fixpoint rows_outcome (fieldnames : list string) (ws : list (gmap string value))
    : res unit :=
  match ws with
  | [] => Ok tt
  | w :: ws' =>
      match writerow fieldnames w with
      | Raise e => Raise e
      | Ok _ => rows_outcome fieldnames ws'
      end
  end.

(** the lines the loop writes: those of the records before the first one
    that is refused *)
Fixpoint rows_written (fieldnames : list string) (ws : list (gmap string value))
    : list (list value) :=
  match ws with
  | [] => []
  | w :: ws' =>
      match writerow fieldnames w with
      | Raise _ => []
      | Ok row => row :: rows_written fieldnames ws'
      end
  end.

(** a world with one list and no file *)
Definition only_list (r : ref) (l : list string) : world :=
  World {[ r := l ]} ∅.

(** a file system that lets every path be opened *)
Definition any_path (path : string) : bool := true.

(** the seven lookups [populate] makes for a gene, in its order *)
Definition gene_requests (geneID : string) : list string :=
  map (url_of GENE_BASE geneID)
    ["sequence_name"; "concise_description"; "gene_models"; "gene_class";
     "human_orthologs"; "nematode_orthologs"; "other_orthologs"].

(** the [best_human_match] lookup for a protein *)
Definition protein_request (proteinID : string) : string :=
  url_of PROTEIN_BASE proteinID "best_human_match".



(** * Properties *)

(** ** The monad *)

Lemma bind_ok {St A B : Type} (m : M St A) (f : A -> M St B) s b s'' :
  bind m f s = (Ok b, s'') ->
  exists a s', m s = (Ok a, s') /\ f a s' = (Ok b, s'').
Proof.
  unfold bind. destruct (m s) as [[a|e] s'] eqn:E; intros H.
  - exists a, s'. split; [reflexivity | exact H].
  - discriminate.
Qed.

Lemma bind_run {St A B : Type} (m : M St A) (f : A -> M St B) s a s' :
  m s = (Ok a, s') -> bind m f s = f a s'.
Proof. unfold bind. intros ->. reflexivity. Qed.

(** ** CuffLinkDatabase *)

Lemma load_rows_lookup headers rows :
  forall acc, Forall (fun r => r <> []) rows ->
  exists d, load_rows headers rows acc = Ok d /\
    forall k, d !! k = match last_row k rows with
                       | Some r => Some (dict_zip headers r)
                       | None => acc !! k
                       end.
Proof.
  induction rows as [|row rows IH]; intros acc Hne.
  - exists acc. split; [reflexivity | intros k; reflexivity].
  - inversion Hne as [|? ? Hrow Hrest]; subst.
    destruct row as [|key cells]; [congruence|].
    destruct (IH (<[key := dict_zip headers (key :: cells)]> acc) Hrest)
      as (d & Hd & Hk).
    exists d. split; [exact Hd|].
    intros k. rewrite Hk. simpl.
    destruct (last_row k rows); [reflexivity|].
    destruct (String.eqb_spec key k) as [->|Hneq].
    + by rewrite lookup_insert_eq.
    + by rewrite lookup_insert_ne.
Qed.

Lemma load_rows_empty_row headers rows :
  forall acc, In [] rows -> load_rows headers rows acc = Raise IndexError.
Proof.
  induction rows as [|row rows IH]; intros acc Hin; [destruct Hin|].
  destruct row as [|key cells]; [reflexivity|].
  destruct Hin as [Heq|Hin]; [discriminate|].
  simpl. by apply IH.
Qed.

Lemma fold_insert_absent (name : string) (pairs : list (string * string)) :
  forall acc : gmap string string,
  ~ In name (map fst pairs) ->
  fold_left (fun d kv => <[fst kv := snd kv]> d) pairs acc !! name = acc !! name.
Proof.
  induction pairs as [|[k v] pairs IH]; intros acc Hn; [reflexivity|].
  simpl in *. rewrite IH by tauto.
  apply lookup_insert_ne. tauto.
Qed.

Lemma fold_insert_lookup (headers : list string) :
  List.NoDup headers ->
  forall (row : list string) (acc : gmap string string) (i : nat) (name : string),
  headers !! i = Some name ->
  fold_left (fun d kv => <[fst kv := snd kv]> d) (combine headers row) acc !! name
  = match row !! i with Some c => Some c | None => acc !! name end.
Proof.
  induction 1 as [|h hs Hh Hnd IH]; intros row acc i name Hi; [destruct i; discriminate|].
  destruct row as [|c cs]; [by destruct i|].
  destruct i as [|i]; simpl in *.
  - injection Hi as ->.
    rewrite fold_insert_absent.
    + by rewrite lookup_insert_eq.
    + intros Hin. apply Hh. apply in_map_iff in Hin as ([k v] & <- & Hin).
      by apply in_combine_l in Hin.
  - rewrite (IH cs _ i name Hi).
    destruct (cs !! i); [reflexivity|].
    apply lookup_insert_ne. intros ->. apply Hh.
    apply list_elem_of_In. by eapply list_elem_of_lookup_2.
Qed.

(** a header that occurs once names the cell below it; a row that is too
    short has no entry for it *)
Lemma dict_zip_lookup (headers row : list string) (i : nat) (name : string) :
  List.NoDup headers -> headers !! i = Some name ->
  dict_zip headers row !! name = row !! i.
Proof.
  intros Hnd Hi. unfold dict_zip.
  rewrite (fold_insert_lookup headers Hnd row ∅ i name Hi).
  by destruct (row !! i).
Qed.

(** C9, as the code has it: loading fails with [StopIteration] when the
    reader yields no row at all and with [IndexError] when some data row is
    empty.  Any other source loads, whatever the lengths of its rows: every
    key is mapped to [dict(zip(headers, row))] of the last row that starts
    with it.  In particular a row with fewer cells than the header loads,
    and its mapping has no entry for the headers it has no cell for.
    Loading is a function of the rows alone: it makes no request. *)
Theorem CuffLinkDatabase_load :
  CuffLinkDatabase [] = Raise StopIteration
  /\ (forall headers rows,
        In [] rows -> CuffLinkDatabase (headers :: rows) = Raise IndexError)
  /\ (forall headers rows,
        Forall (fun r => r <> []) rows ->
        exists d, CuffLinkDatabase (headers :: rows) = Ok d
          /\ forall k, get d k = dict_zip headers <$> last_row k rows)
  /\ (forall headers row i name,
        List.NoDup headers -> headers !! i = Some name ->
        dict_zip headers row !! name = row !! i).
Proof.
  split; [reflexivity|]. split; [|split].
  - intros headers rows Hin. by apply load_rows_empty_row.
  - intros headers rows Hne.
    destruct (load_rows_lookup headers rows ∅ Hne) as (d & Hd & Hk).
    exists d. split; [exact Hd|].
    intros k. unfold get. rewrite Hk.
    destruct (last_row k rows); [reflexivity | apply lookup_empty].
  - intros. by apply dict_zip_lookup.
Qed.

(** a source with a header and one data row *)
Lemma CuffLinkDatabase_load_witness :
  exists d, CuffLinkDatabase [["id"; "log2(fold_change)"]; ["XLOC_001"; "2.5"]] = Ok d
    /\ (get d "XLOC_001" ≫= (.!! "log2(fold_change)")) = Some "2.5".
Proof.
  destruct CuffLinkDatabase_load as (_ & _ & Hload & Hzip).
  destruct (Hload ["id"; "log2(fold_change)"] [["XLOC_001"; "2.5"]]) as (d & Hd & Hk).
  - repeat constructor; discriminate.
  - exists d. split; [exact Hd|].
    rewrite Hk. simpl.
    apply (Hzip ["id"; "log2(fold_change)"] ["XLOC_001"; "2.5"] 1 "log2(fold_change)").
    + repeat constructor; simpl; intuition discriminate.
    + reflexivity.
Defined.

(** C9 as stated fails: a data row shorter than the header is loaded, and
    so is a file whose header line has no column. *)
Lemma CuffLinkDatabase_accepts_short_row :
  CuffLinkDatabase [["id"; "log2(fold_change)"]; ["XLOC_001"]]
    = Ok {[ "XLOC_001" := {[ "id" := "XLOC_001" ]} ]}
  /\ CuffLinkDatabase [[]; ["XLOC_001"; "2.5"]] = Ok {[ "XLOC_001" := ∅ ]}.
Proof. split; reflexivity. Qed.

(** ** WormData.fetch *)

Section Fetch.

Variable net : string -> reply.

(** a lookup for a string identifier logs its URL, whatever it comes to,
    and leaves the collected data alone *)
Lemma fetch_run baseUrl id datum s :
  fetch net baseUrl (VStr id) datum s
  = (response net baseUrl (VStr id) datum, logged (url_of baseUrl id datum) s).
Proof.
  unfold response, fetch, endpoint, str_add, bind, lift, requests_get, and_then, ret.
  fold (url_of baseUrl id datum). cbn [trace data fst].
  destruct (net (url_of baseUrl id datum)) as [| |j]; cbn [json]; try reflexivity.
  destruct (contains datum j) as [[]|]; try reflexivity.
  - destruct (getitem j datum) as [jd|]; try reflexivity.
    destruct (contains "data" jd) as [[]|]; reflexivity.
Qed.



End Fetch.


(** ** Reasoning about runs that return *)

Section Wp.

Context {St : Type}.

Lemma wp_ret {A} (a : A) (Q : A -> St -> Prop) s : Q a s -> wp (ret a) Q s.
Proof. intros H a' s' [= <- <-]. exact H. Qed.

Lemma wp_raise {A} e (Q : A -> St -> Prop) s : wp (raise e) Q s.
Proof. intros a' s' [=]. Qed.

Lemma wp_lift {A} (r : res A) (Q : A -> St -> Prop) s :
  (forall a, r = Ok a -> Q a s) -> wp (lift r) Q s.
Proof. intros H a' s' [= -> <-]. by apply H. Qed.

Lemma wp_bind {A B} (m : M St A) (f : A -> M St B) (Q : B -> St -> Prop) s :
  wp m (fun a s' => wp (f a) Q s') s -> wp (bind m f) Q s.
Proof.
  intros H b s'' Hrun. apply bind_ok in Hrun as (a & s' & Hm & Hf).
  exact (H a s' Hm b s'' Hf).
Qed.

Lemma wp_mono {A} (m : M St A) (Q Q' : A -> St -> Prop) s :
  wp m Q s -> (forall a s', Q a s' -> Q' a s') -> wp m Q' s.
Proof. intros H HQ a s' Hrun. apply HQ. by apply H. Qed.

Lemma wp_when (c : bool) (body : M St unit) (Q : unit -> St -> Prop) s :
  (c = true -> wp body Q s) -> (c = false -> Q tt s) -> wp (when c body) Q s.
Proof.
  destruct c; simpl; intros Ht Hf; [by apply Ht | apply wp_ret; by apply Hf].
Qed.

Lemma wp_and_then (a b : M St bool) (Q : bool -> St -> Prop) s :
  wp a (fun x s' => if x then wp b Q s' else Q false s') s -> wp (and_then a b) Q s.
Proof.
  intros H. unfold and_then. apply wp_bind.
  eapply wp_mono; [exact H|]. intros [] s' Hx; [exact Hx | by apply wp_ret].
Qed.

End Wp.

Lemma wp_set_data k v (Q : unit -> wstate -> Prop) s :
  Q tt (WState (trace s) (<[k := v]> (data s))) -> wp (set_data k v) Q s.
Proof. intros H a s' [= <- <-]. exact H. Qed.

Lemma wp_get_data k (Q : value -> wstate -> Prop) s :
  (forall v, data s !! k = Some v -> Q v s) -> wp (get_data k) Q s.
Proof.
  intros H a s'. unfold get_data. destruct (data s !! k) eqn:E; intros [= <- <-].
  by apply H.
Qed.

Lemma wp_append_data k v (Q : unit -> wstate -> Prop) s :
  (forall xs, data s !! k = Some (VList xs) ->
     Q tt (WState (trace s) (<[k := VList (xs ++ [v])]> (data s)))) ->
  wp (append_data k v) Q s.
Proof.
  intros H. unfold append_data. apply wp_bind, wp_get_data. intros l Hl.
  destruct l; try apply wp_raise. apply wp_set_data. by apply H.
Qed.

(** a lookup that returns has made one request for a string identifier and
    has left the collected data as it was *)
Lemma fetch_ok net baseUrl id datum s v s' :
  fetch net baseUrl id datum s = (Ok v, s') ->
  exists i, id = VStr i /\ response net baseUrl id datum = Ok v
            /\ s' = logged (url_of baseUrl i datum) s.
Proof.
  destruct id as [| | |i| |]; try (intros [=]; fail).
  rewrite fetch_run. intros [= Hr <-]. by exists i.
Qed.

Lemma wp_fetch net baseUrl id datum (Q : value -> wstate -> Prop) s :
  (forall i v, id = VStr i -> response net baseUrl id datum = Ok v ->
     Q v (logged (url_of baseUrl i datum) s)) ->
  wp (fetch net baseUrl id datum) Q s.
Proof.
  intros H v s' Hrun. apply fetch_ok in Hrun as (i & -> & Hr & ->). by apply H.
Qed.

(** ** What a run leaves alone *)

Section Keeps.

Variable P : gmap string value -> Prop.

Lemma keeps_ret {A} (a : A) : keeps P (ret a).
Proof. intros s r s' HP [= <- <-]. exact HP. Qed.

Lemma keeps_raise {A} e : keeps P (raise e : M wstate A).
Proof. intros s r s' HP [= <- <-]. exact HP. Qed.

Lemma keeps_lift {A} (x : res A) : keeps P (lift x).
Proof. intros s r s' HP [= <- <-]. exact HP. Qed.

Lemma keeps_bind {A B} (m : M wstate A) (f : A -> M wstate B) :
  keeps P m -> (forall a, keeps P (f a)) -> keeps P (bind m f).
Proof.
  intros Hm Hf s r s'' HP. unfold bind.
  destruct (m s) as [[a|e] s'] eqn:E.
  - intros Hrun. exact (Hf a s' r s'' (Hm s _ s' HP E) Hrun).
  - intros [= <- <-]. exact (Hm s _ s' HP E).
Qed.

Lemma keeps_when (c : bool) (body : M wstate unit) :
  keeps P body -> keeps P (when c body).
Proof. destruct c; simpl; [trivial | intros _; apply keeps_ret]. Qed.

Lemma keeps_if {A} (c : bool) (a b : M wstate A) :
  keeps P a -> keeps P b -> keeps P (if c then a else b).
Proof. by destruct c. Qed.

Lemma keeps_and_then (a b : M wstate bool) :
  keeps P a -> keeps P b -> keeps P (and_then a b).
Proof.
  intros Ha Hb. apply keeps_bind; [exact Ha|].
  intros []; [exact Hb | apply keeps_ret].
Qed.

Lemma keeps_for_each {A} (l : list A) (body : A -> M wstate unit) :
  (forall x, keeps P (body x)) -> keeps P (for_each l body).
Proof.
  intros Hbody. induction l as [|x l IH]; simpl.
  - apply keeps_ret.
  - apply keeps_bind; [apply Hbody | intros _; exact IH].
Qed.

Lemma keeps_get_data k : keeps P (get_data k).
Proof.
  intros s r s' HP. unfold get_data.
  destruct (data s !! k); intros [= <- <-]; exact HP.
Qed.

Lemma keeps_set_data k v :
  (forall d, P d -> P (<[k := v]> d)) -> keeps P (set_data k v).
Proof. intros H s r s' HP [= <- <-]. by apply H. Qed.

Lemma keeps_append_data k v :
  (forall d x, P d -> P (<[k := x]> d)) -> keeps P (append_data k v).
Proof.
  intros H. apply keeps_bind; [apply keeps_get_data|].
  intros []; try apply keeps_raise. apply keeps_set_data. intros d. apply H.
Qed.

Lemma keeps_fetch net baseUrl id datum : keeps P (fetch net baseUrl id datum).
Proof.
  intros s r s' HP. destruct id as [| | |i| |]; try (intros [= <- <-]; exact HP).
  rewrite fetch_run. intros [= <- <-]. exact HP.
Qed.

Lemma keeps_joinIfExtant k :
  (forall d x, P d -> P (<[k := x]> d)) -> keeps P (joinIfExtant k).
Proof.
  intros H. unfold joinIfExtant.
  apply keeps_bind; [apply keeps_get_data | intros v].
  apply keeps_bind; [apply keeps_lift | intros n].
  apply keeps_if; [apply keeps_set_data; intros d; apply H|].
  apply keeps_bind; [apply keeps_get_data | intros v'].
  apply keeps_bind; [apply keeps_lift | intros j].
  apply keeps_set_data. intros d. apply H.
Qed.

Lemma keeps_wp {A} (m : M wstate A) s :
  keeps P m -> P (data s) -> wp m (fun _ s' => P (data s')) s.
Proof. intros Hk HP a s' Hrun. exact (Hk s _ s' HP Hrun). Qed.

End Keeps.

(** writing one field does not change what is stored under another *)
Lemma other_field (key k : string) (x v : value) (d : gmap string value) :
  k <> key -> d !! key = Some x -> <[k := v]> d !! key = Some x.
Proof. intros Hne Hd. by rewrite lookup_insert_ne. Qed.

Ltac keeps_step :=
  first
    [ apply keeps_fetch
    | apply keeps_get_data
    | apply keeps_set_data; intros ?; apply other_field; congruence
    | apply keeps_append_data; intros ? ?; apply other_field; congruence
    | apply keeps_joinIfExtant; intros ? ?; apply other_field; congruence
    | apply keeps_lift
    | apply keeps_ret
    | apply keeps_raise
    | apply keeps_and_then
    | apply keeps_when
    | apply keeps_for_each; intros ?
    | apply keeps_if
    | apply keeps_bind; [|intros ?] ].

Ltac keeps_auto := repeat keeps_step.

Section Frames.

Variable net : string -> reply.
Variable key : string.
Variable x : value.

Let P : gmap string value -> Prop := fun d => d !! key = Some x.

Lemma keeps_protein_ids geneID :
  key <> "protein_id" -> keeps P (protein_ids net geneID).
Proof. intros Hk. unfold protein_ids, nonempty_with, P. keeps_auto. Qed.

Lemma keeps_gene_class geneID :
  key <> "gene_class" -> keeps P (gene_class net geneID).
Proof. intros Hk. unfold gene_class, nonempty_with, P. keeps_auto. Qed.

Lemma keeps_orthologs geneID datum :
  key <> datum -> keeps P (orthologs net geneID datum).
Proof. intros Hk. unfold orthologs, P. keeps_auto. Qed.

Lemma keeps_best_human_match proteinID :
  key <> "best_human_ortholog" -> keeps P (best_human_match net proteinID).
Proof. intros Hk. unfold best_human_match, nonempty_with, P. keeps_auto. Qed.

Lemma keeps_best_human_ortholog :
  key <> "best_human_ortholog" -> keeps P (best_human_ortholog net).
Proof.
  intros Hk. unfold best_human_ortholog. unfold P. keeps_auto.
  all: by apply keeps_best_human_match.
Qed.

End Frames.

Section FramesPy3.

Variable net : string -> reply.
Variable key : string.
Variable x : value.

Let P : gmap string value -> Prop := fun d => d !! key = Some x.

Lemma keeps_protein_ids_py3 geneID :
  key <> "protein_id" -> keeps P (Py3.protein_ids net geneID).
Proof.
  intros Hk. unfold Py3.protein_ids, Py3.join_or_none, nonempty_with, P. keeps_auto.
Qed.

Lemma keeps_orthologs_py3 geneID datum :
  key <> datum -> keeps P (Py3.orthologs net geneID datum).
Proof. intros Hk. unfold Py3.orthologs, Py3.join_or_none, P. keeps_auto. Qed.

Lemma keeps_best_human_ortholog_py3 :
  key <> "best_human_ortholog" -> keeps P (Py3.best_human_ortholog net).
Proof.
  intros Hk. unfold Py3.best_human_ortholog, Py3.join_or_none, P. keeps_auto.
  all: by apply keeps_best_human_match.
Qed.

End FramesPy3.

Ltac keeps_populate :=
  repeat first
    [ apply keeps_protein_ids; congruence
    | apply keeps_gene_class; congruence
    | apply keeps_orthologs; congruence
    | apply keeps_best_human_ortholog; congruence
    | apply keeps_protein_ids_py3; congruence
    | apply keeps_orthologs_py3; congruence
    | apply keeps_best_human_ortholog_py3; congruence
    | keeps_step ].

(** ** WormData.populate: the prefix guard *)

Lemma prefix_nonempty (p s : string) :
  p <> "" -> String.prefix p s = true -> negb (String.eqb s "") = true.
Proof. destruct s; [destruct p; [congruence | discriminate] | reflexivity]. Qed.

(** python2/WormCSV.py: for an identifier without the prefix [WBGene] the
    constructor makes no request and the record holds [gene_id] alone. *)
Lemma WormData_without_prefix net database dbId geneID s :
  String.prefix "WBGene" geneID = false ->
  WormData net database dbId geneID s
  = (Ok tt, WState (trace s) {[ "gene_id" := VStr geneID ]}).
Proof.
  intros Hp. unfold WormData, populate, bind, set_data. cbn [trace data].
  rewrite Hp, andb_false_r. unfold when, ret.
  by rewrite insert_empty.
Qed.

(** C1 on python3/WormCSV.py: [populate] has no prefix guard there.  For the
    identifier [XLOC_000001] it sends eight requests and fills the record. *)
Theorem populate_py3_without_prefix :
  exists s', Py3.WormData (server [protein_row "P"]) one_row (Some "XLOC_000001") "XLOC_000001"
               (WState [] ∅) = (Ok tt, s')
    /\ length (trace s') = 8
    /\ data s' !! "sequence_name" = Some (VStr "abc-1")
    /\ data s' !! "best_human_ortholog" = Some (VStr "human X").
Proof. eexists. split; [vm_compute; reflexivity|]. by vm_compute. Qed.

(** ** WormData.populate: a lookup that yields [None] *)

(** C3 fails on the code: when the [concise_description] lookup yields
    [None], [description['text']] raises [TypeError] and the five lookups
    after it are never made, in both renditions. *)
Theorem populate_description_none_raises :
  WormData no_description ∅ None "WBGene00001234" (WState [] ∅)
  = (Raise TypeError,
     WState [url_of GENE_BASE "WBGene00001234" "sequence_name";
             url_of GENE_BASE "WBGene00001234" "concise_description"]
            (<["sequence_name" := VStr "abc-1"]> {[ "gene_id" := VStr "WBGene00001234" ]}))
  /\ fst (Py3.WormData no_description one_row (Some "XLOC_000001") "WBGene00001234"
            (WState [] ∅)) = Raise TypeError.
Proof. split; by vm_compute. Qed.

(** whatever the server and the store, [populate] does not return once the
    [concise_description] lookup has yielded [None] *)
Lemma populate_needs_description net database dbId geneID s :
  String.prefix "WBGene" geneID = true ->
  response net GENE_BASE (VStr geneID) "concise_description" = Ok VNone ->
  wp (populate net database dbId geneID) (fun _ _ => False) s.
Proof.
  intros Hp Hd. unfold populate.
  rewrite Hp, (prefix_nonempty "WBGene" geneID) by done. cbn [andb when].
  apply wp_bind. intros _ s1 _.
  apply wp_bind, wp_fetch. intros i sq [= <-] _.
  apply wp_bind, wp_set_data.
  apply wp_bind, wp_fetch. intros i d [= <-] Hd'.
  rewrite Hd in Hd'. injection Hd' as <-.
  apply wp_bind, wp_lift. intros a [=].
Qed.

(** ** WormData.populate: the record identifier *)

Section UpDown.

Variable net : string -> reply.
Variable database : gmap string (gmap string string).




End UpDown.

(** ** WormData.populate: the shape of the stored values *)

Lemma flat_but_insert (L L' : list string) k v d :
  flat_but L d ->
  scalar v = true \/ In k L' ->
  (forall k', In k' L -> k' = k \/ In k' L') ->
  flat_but L' (<[k := v]> d).
Proof.
  intros Hd Hv HL k0 v0. destruct (decide (k = k0)) as [<-|Hne].
  - rewrite lookup_insert_eq. by intros [= <-].
  - rewrite lookup_insert_ne by done. intros H0.
    destruct (Hd k0 v0 H0) as [?|Hin]; [by left|].
    destruct (HL k0 Hin) as [->|?]; [done | by right].
Qed.

Lemma flat_but_set (L : list string) k v d :
  scalar v = true \/ In k L -> flat_but L d -> flat_but L (<[k := v]> d).
Proof. intros Hv Hd. apply (flat_but_insert L L); auto. Qed.

Lemma flat_but_more (L L' : list string) d :
  (forall k, In k L -> In k L') -> flat_but L d -> flat_but L' d.
Proof. intros HL Hd k v Hk. destruct (Hd k v Hk); auto. Qed.

Ltac pick := simpl; repeat first [ left; reflexivity | right ].

Ltac keeps_flat :=
  repeat first
    [ apply keeps_fetch
    | apply keeps_get_data
    | apply keeps_set_data; intros ?; apply flat_but_set; pick
    | apply keeps_append_data; intros ? ?; apply flat_but_set; pick
    | apply keeps_lift
    | apply keeps_ret
    | apply keeps_raise
    | apply keeps_and_then
    | apply keeps_when
    | apply keeps_for_each; intros ?
    | apply keeps_if
    | apply keeps_bind; [|intros ?] ].

Section Flat.

Variable net : string -> reply.
Variable database : gmap string (gmap string string).

Lemma wp_joinIfExtant_flat (L : list string) k s :
  flat_but (k :: L) (data s) ->
  wp (joinIfExtant k) (fun _ s' => flat_but L (data s')) s.
Proof.
  intros Hd. unfold joinIfExtant.
  apply wp_bind, wp_get_data. intros v _.
  apply wp_bind, wp_lift. intros n _.
  destruct (Nat.eqb n 0).
  - apply wp_set_data. cbn [data].
    apply (flat_but_insert (k :: L) L); [exact Hd | by left | intros k' [->|?]; auto].
  - apply wp_bind, wp_get_data. intros v' _.
    apply wp_bind, wp_lift. intros j _.
    apply wp_set_data. cbn [data].
    apply (flat_but_insert (k :: L) L); [exact Hd | by left | intros k' [->|?]; auto].
Qed.

Lemma wp_orthologs_flat (L : list string) geneID datum s :
  flat_but (datum :: L) (data s) ->
  wp (orthologs net geneID datum) (fun _ s' => flat_but L (data s')) s.
Proof.
  intros Hd. unfold orthologs.
  apply wp_bind, wp_fetch. intros i found _ _.
  apply wp_bind.
  eapply wp_mono;
    [apply (keeps_wp (flat_but (datum :: L)));
       [apply keeps_set_data; intros ?; apply flat_but_set; pick | exact Hd]|].
  cbv beta. intros _ s1 H1. apply wp_bind.
  eapply wp_mono;
    [apply (keeps_wp (flat_but (datum :: L))); [keeps_flat | exact H1]|].
  cbv beta. intros _ s2 H2. by apply wp_joinIfExtant_flat.
Qed.

End Flat.

Ltac keep P :=
  apply wp_bind;
  eapply wp_mono;
  [ apply (keeps_wp P); [ | eassumption ] | cbv beta; intros ? ? ? ].

Ltac then_wp lem :=
  apply wp_bind;
  eapply wp_mono;
  [ apply lem; eassumption | cbv beta; intros ? ? ? ].

Section FlatPopulate.

Variable net : string -> reply.
Variable database : gmap string (gmap string string).

Lemma keeps_up_down_flat L dbId : keeps (flat_but L) (up_down database dbId).
Proof.
  unfold up_down. destruct dbId as [i|]; [|apply keeps_ret].
  apply keeps_when. destruct (get database i) as [row|]; [|apply keeps_raise].
  destruct (row !! "log2(fold_change)"); keeps_flat.
Qed.

Lemma keeps_up_down_flat_py3 L dbId : keeps (flat_but L) (Py3.up_down database dbId).
Proof.
  unfold Py3.up_down. destruct dbId as [i|]; [|apply keeps_raise].
  destruct (get database i) as [row|]; [|apply keeps_raise].
  destruct (row !! "log2(fold_change)"); keeps_flat.
Qed.

Lemma keeps_protein_ids_flat L geneID :
  In "protein_id" L -> keeps (flat_but L) (protein_ids net geneID).
Proof.
  intros Hin. unfold protein_ids, nonempty_with.
  repeat first
    [ apply keeps_fetch
    | apply keeps_set_data; intros ?; apply flat_but_set; by right
    | apply keeps_append_data; intros ? ?; apply flat_but_set; by right
    | apply keeps_lift
    | apply keeps_ret
    | apply keeps_and_then
    | apply keeps_when
    | apply keeps_for_each; intros ?
    | apply keeps_bind; [|intros ?] ].
Qed.

Lemma keeps_gene_class_flat L geneID :
  In "gene_class" L -> keeps (flat_but L) (gene_class net geneID).
Proof.
  intros Hin. unfold gene_class, nonempty_with.
  repeat first
    [ apply keeps_fetch
    | apply keeps_set_data; intros ?; apply flat_but_set; by right
    | apply keeps_lift
    | apply keeps_ret
    | apply keeps_and_then
    | apply keeps_when
    | apply keeps_bind; [|intros ?] ].
Qed.

Lemma keeps_best_human_match_flat L proteinID :
  In "best_human_ortholog" L -> keeps (flat_but L) (best_human_match net proteinID).
Proof.
  intros Hin. unfold best_human_match, nonempty_with.
  repeat first
    [ apply keeps_fetch
    | apply keeps_append_data; intros ? ?; apply flat_but_set; by right
    | apply keeps_lift
    | apply keeps_ret
    | apply keeps_and_then
    | apply keeps_when
    | apply keeps_bind; [|intros ?] ].
Qed.

Lemma keeps_best_human_ortholog_flat L :
  In "best_human_ortholog" L -> keeps (flat_but L) (best_human_ortholog net).
Proof.
  intros Hin. unfold best_human_ortholog.
  repeat first
    [ apply keeps_best_human_match_flat; exact Hin
    | apply keeps_get_data
    | apply keeps_set_data; intros ?; apply flat_but_set; by right
    | apply keeps_lift
    | apply keeps_when
    | apply keeps_for_each; intros ?
    | apply keeps_if
    | apply keeps_bind; [|intros ?] ].
Qed.

Lemma wp_populate_flat dbId geneID s :
  flat_but verbatim (data s) ->
  wp (populate net database dbId geneID) (fun _ s' => flat_but verbatim (data s')) s.
Proof.
  intros H0. unfold populate. apply wp_when; [intros _ | by intros _].
  pose (L2 := "protein_id" :: "best_human_ortholog" :: verbatim).
  pose (L5 := "human_orthologs" :: "nematode_orthologs" :: "other_orthologs" :: L2).
  assert (H5 : flat_but L5 (data s)).
  { revert H0. apply flat_but_more. subst L5 L2. simpl. tauto. }
  clear H0.
  keep (flat_but L5); [apply keeps_up_down_flat|].
  keep (flat_but L5); [apply keeps_fetch|].
  keep (flat_but L5); [keeps_flat|].
  keep (flat_but L5); [apply keeps_fetch|].
  keep (flat_but L5); [apply keeps_lift|].
  keep (flat_but L5); [keeps_flat|].
  keep (flat_but L5); [apply keeps_protein_ids_flat; subst L5 L2; pick|].
  keep (flat_but L5); [apply keeps_gene_class_flat; subst L5 L2; pick|].
  then_wp (wp_orthologs_flat net ("nematode_orthologs" :: "other_orthologs" :: L2)).
  then_wp (wp_orthologs_flat net ("other_orthologs" :: L2)).
  then_wp (wp_orthologs_flat net L2).
  keep (flat_but L2); [apply keeps_best_human_ortholog_flat; subst L2; pick|].
  then_wp (wp_joinIfExtant_flat ("best_human_ortholog" :: verbatim)).
  by apply wp_joinIfExtant_flat.
Qed.

End FlatPopulate.

Section FlatPopulatePy3.

Variable net : string -> reply.
Variable database : gmap string (gmap string string).

Lemma wp_protein_ids_flat_py3 (L : list string) geneID s :
  flat_but ("protein_id" :: L) (data s) ->
  wp (Py3.protein_ids net geneID) (fun _ s' => flat_but L (data s')) s.
Proof.
  intros Hd. unfold Py3.protein_ids, nonempty_with.
  keep (flat_but ("protein_id" :: L)); [apply keeps_fetch|].
  keep (flat_but ("protein_id" :: L)); [keeps_flat|].
  keep (flat_but ("protein_id" :: L)); [apply keeps_lift|].
  keep (flat_but ("protein_id" :: L)); [apply keeps_lift|].
  keep (flat_but ("protein_id" :: L)); [keeps_flat|].
  by apply wp_joinIfExtant_flat.
Qed.

Lemma wp_best_human_ortholog_flat_py3 (L : list string) s :
  flat_but ("best_human_ortholog" :: L) (data s) ->
  wp (Py3.best_human_ortholog net) (fun _ s' => flat_but L (data s')) s.
Proof.
  intros Hd. unfold Py3.best_human_ortholog.
  keep (flat_but ("best_human_ortholog" :: L)); [keeps_flat|].
  keep (flat_but ("best_human_ortholog" :: L)); [apply keeps_get_data|].
  keep (flat_but ("best_human_ortholog" :: L)).
  { repeat first
      [ apply keeps_best_human_match_flat; by left
      | apply keeps_get_data
      | apply keeps_lift
      | apply keeps_for_each; intros ?
      | apply keeps_if
      | apply keeps_bind; [|intros ?] ]. }
  by apply wp_joinIfExtant_flat.
Qed.

Lemma wp_populate_flat_py3 xlocID geneID s :
  flat_but verbatim (data s) ->
  wp (Py3.populate net database xlocID geneID)
     (fun _ s' => flat_but verbatim (data s')) s.
Proof.
  intros H0. unfold Py3.populate.
  pose (L1 := "best_human_ortholog" :: verbatim).
  pose (L4 := "human_orthologs" :: "nematode_orthologs" :: "other_orthologs" :: L1).
  assert (H5 : flat_but ("protein_id" :: L4) (data s)).
  { revert H0. apply flat_but_more. subst L4 L1. simpl. tauto. }
  clear H0.
  keep (flat_but ("protein_id" :: L4)); [apply keeps_up_down_flat_py3|].
  keep (flat_but ("protein_id" :: L4)); [apply keeps_fetch|].
  keep (flat_but ("protein_id" :: L4)); [keeps_flat|].
  keep (flat_but ("protein_id" :: L4)); [apply keeps_fetch|].
  keep (flat_but ("protein_id" :: L4)); [apply keeps_lift|].
  keep (flat_but ("protein_id" :: L4)); [keeps_flat|].
  then_wp (wp_protein_ids_flat_py3 L4).
  keep (flat_but L4); [apply keeps_fetch|].
  keep (flat_but L4); [keeps_flat|].
  then_wp (wp_orthologs_flat net ("nematode_orthologs" :: "other_orthologs" :: L1)).
  then_wp (wp_orthologs_flat net ("other_orthologs" :: L1)).
  then_wp (wp_orthologs_flat net L1).
  by apply wp_best_human_ortholog_flat_py3.
Qed.

End FlatPopulatePy3.

(** C4, as the code has it: when the constructor returns, every stored value
    is a string or [None], except that [sequence_name], [description] and
    [gene_class] hold whatever value the server sent in their place.  This
    holds of both renditions. *)
Theorem stored_values_flat net database dbId geneID s s' :
  WormData net database dbId geneID s = (Ok tt, s')
  \/ Py3.WormData net database dbId geneID s = (Ok tt, s') ->
  forall k v, describe s' !! k = Some v ->
    scalar v = true \/ In k ["sequence_name"; "description"; "gene_class"].
Proof.
  assert (H0 : flat_but verbatim
                 (data (WState (trace s) (<["gene_id" := VStr geneID]> ∅)))).
  { cbn [data]. apply flat_but_set; [by left|]. intros k v. by rewrite lookup_empty. }
  intros [Hrun|Hrun]; unfold WormData, Py3.WormData in Hrun.
  - apply bind_ok in Hrun as ([] & s1 & [= <-] & Hrun).
    exact (wp_populate_flat net database dbId geneID _ H0 tt s' Hrun).
  - apply bind_ok in Hrun as ([] & s1 & [= <-] & Hrun).
    exact (wp_populate_flat_py3 net database dbId geneID _ H0 tt s' Hrun).
Qed.

(** ** Lists of strings *)

Lemma strings_of_map (ss : list string) : strings_of (map VStr ss) = Some ss.
Proof. induction ss as [|x ss IH]; simpl; [reflexivity | by rewrite IH]. Qed.

Lemma strings_of_inv (l : list value) (ss : list string) :
  strings_of l = Some ss -> l = map VStr ss.
Proof.
  revert ss. induction l as [|v l IH]; intros ss; simpl.
  - by intros [= <-].
  - destruct v; try discriminate.
    destruct (strings_of l) eqn:E; [|discriminate].
    intros [= <-]. simpl. by rewrite (IH _ eq_refl).
Qed.

(** ** WormData.joinIfExtant *)

(** on a field that holds a list of strings, [joinIfExtant] returns and
    leaves the strings joined by [", "] in their order, or [None] when the
    list is empty *)
Lemma joinIfExtant_run (datum : string) (entries : list string) (s : wstate) :
  data s !! datum = Some (VList (map VStr entries)) ->
  joinIfExtant datum s
  = (Ok tt, WState (trace s) (<[datum := joined entries]> (data s))).
Proof.
  intros Hd. unfold joinIfExtant, bind, get_data, lift, set_data.
  rewrite Hd. cbn [len]. rewrite length_map.
  destruct entries as [|e entries]; [reflexivity|].
  cbn [length Nat.eqb]. rewrite Hd. unfold join. cbn [iterate].
  by rewrite strings_of_map.
Qed.

(** when [joinIfExtant] returns, the field held strings, and now holds them
    joined *)
Lemma wp_joinIfExtant (datum : string) (l : list value) (s : wstate) :
  data s !! datum = Some (VList l) ->
  wp (joinIfExtant datum)
     (fun _ s' => exists entries, l = map VStr entries
                  /\ data s' !! datum = Some (joined entries)) s.
Proof.
  intros Hd. unfold joinIfExtant.
  apply wp_bind, wp_get_data. intros v Hv. rewrite Hd in Hv. injection Hv as <-.
  apply wp_bind, wp_lift. intros n [= <-].
  destruct l as [|x l].
  - apply wp_set_data. exists []. split; [reflexivity|]. apply lookup_insert_eq.
  - cbn [length Nat.eqb].
    apply wp_bind, wp_get_data. intros v Hv. rewrite Hd in Hv. injection Hv as <-.
    apply wp_bind, wp_lift. intros j Hj. apply wp_set_data.
    unfold join in Hj. cbn [iterate] in Hj.
    destruct (strings_of (x :: l)) as [ss|] eqn:E; [|discriminate].
    injection Hj as <-. exists ss. split; [by apply strings_of_inv|].
    cbn [data]. rewrite lookup_insert_eq.
    destruct ss; [destruct x; simpl in E; try discriminate;
                  destruct (strings_of l); discriminate | reflexivity].
Qed.

(** ** What the loops of populate collect *)

Lemma wp_and {St A} (m : M St A) (Q1 Q2 : A -> St -> Prop) s :
  wp m Q1 s -> wp m Q2 s -> wp m (fun a s' => Q1 a s' /\ Q2 a s') s.
Proof. intros H1 H2 a s' Hrun. split; [by apply H1 | by apply H2]. Qed.

Lemma wp_collect {A} (f : A -> res (option value)) (k : string)
    (body : A -> M wstate unit) (items : list A) :
  (forall x acc s, data s !! k = Some (VList acc) ->
     wp (body x)
        (fun _ s' => exists o, f x = Ok o
                     /\ data s' !! k = Some (VList (acc ++ option_list o))) s) ->
  forall acc s, data s !! k = Some (VList acc) ->
    wp (for_each items body)
       (fun _ s' => exists ls, collect f items = Ok ls
                    /\ data s' !! k = Some (VList (acc ++ ls))) s.
Proof.
  intros Hbody. induction items as [|x items IH]; intros acc s Hacc; simpl.
  - apply wp_ret. exists []. by rewrite app_nil_r.
  - apply wp_bind. eapply wp_mono; [by apply Hbody|].
    cbv beta. intros [] s1 (o & Ho & H1).
    eapply wp_mono; [by apply IH|].
    cbv beta. intros [] s2 (ls & Hls & H2).
    exists (option_list o ++ ls). rewrite Ho, Hls. split; [reflexivity|].
    by rewrite app_assoc.
Qed.

Section Collecting.

Variable net : string -> reply.

Lemma wp_label datum item acc s :
  data s !! datum = Some (VList acc) ->
  wp (o <- lift (getitem item "ortholog") ;;
      l <- lift (getitem o "label") ;;
      append_data datum l)
     (fun _ s' => exists o, label_of item = Ok o
                  /\ data s' !! datum = Some (VList (acc ++ option_list o))) s.
Proof.
  intros Hacc.
  apply wp_bind, wp_lift. intros o Ho.
  apply wp_bind, wp_lift. intros l Hl.
  apply wp_append_data. intros xs Hxs. rewrite Hacc in Hxs. injection Hxs as <-.
  exists (Some l). unfold label_of. rewrite Ho, Hl. split; [reflexivity|].
  apply lookup_insert_eq.
Qed.

Lemma wp_protein item acc s :
  data s !! "protein_id" = Some (VList acc) ->
  wp (c' <- and_then (nonempty_with "protein" item)
                     (p <- lift (getitem item "protein") ;; lift (contains "id" p)) ;;
      when c'
        (p <- lift (getitem item "protein") ;;
         i <- lift (getitem p "id") ;;
         append_data "protein_id" i))
     (fun _ s' => exists o, protein_of item = Ok o
                  /\ data s' !! "protein_id" = Some (VList (acc ++ option_list o))) s.
Proof.
  intros Hacc. unfold protein_of, nonempty_with.
  apply wp_bind, wp_and_then, wp_and_then, wp_ret.
  destruct (truthy item).
  - apply wp_lift. intros c Hc. rewrite Hc. destruct c.
    + apply wp_bind, wp_lift. intros p Hp. rewrite Hp.
      apply wp_lift. intros c Hc'. rewrite Hc'. destruct c.
      * cbn [when]. apply wp_bind, wp_lift. intros p' [= <-].
        apply wp_bind, wp_lift. intros i Hi. rewrite Hi.
        apply wp_append_data. intros xs Hxs. rewrite Hacc in Hxs. injection Hxs as <-.
        exists (Some i). split; [reflexivity | apply lookup_insert_eq].
      * cbn [when]. apply wp_ret. exists None. by rewrite app_nil_r.
    + cbn [when]. apply wp_ret. exists None. by rewrite app_nil_r.
  - cbn [when]. apply wp_ret. exists None. by rewrite app_nil_r.
Qed.

Lemma wp_best_human_match proteinID acc s :
  data s !! "best_human_ortholog" = Some (VList acc) ->
  wp (best_human_match net proteinID)
     (fun _ s' => exists o, description_of net proteinID = Ok o
                  /\ data s' !! "best_human_ortholog"
                     = Some (VList (acc ++ option_list o))) s.
Proof.
  intros Hacc. unfold best_human_match, description_of, nonempty_with.
  apply wp_bind, wp_fetch. intros i m -> Hm. rewrite Hm.
  apply wp_bind, wp_and_then, wp_ret.
  destruct (truthy m).
  - apply wp_lift. intros c Hc. rewrite Hc. destruct c; cbn [when].
    + apply wp_bind, wp_lift. intros d Hd. rewrite Hd.
      apply wp_append_data. intros xs Hxs. cbn [logged data] in Hxs.
      rewrite Hacc in Hxs. injection Hxs as <-.
      exists (Some d). split; [reflexivity | apply lookup_insert_eq].
    + apply wp_ret. exists None. by rewrite app_nil_r.
  - cbn [when]. apply wp_ret. exists None. by rewrite app_nil_r.
Qed.

(** an ortholog lookup that returns leaves the labels of the answer joined *)
Lemma wp_orthologs geneID datum s :
  wp (orthologs net geneID datum)
     (fun _ s' => exists found entries,
        response net GENE_BASE (VStr geneID) datum = Ok found
        /\ labels found = Ok (map VStr entries)
        /\ data s' !! datum = Some (joined entries)) s.
Proof.
  unfold orthologs.
  apply wp_bind, wp_fetch. intros i found [= <-] Hfound.
  apply wp_bind, wp_set_data.
  set (s1 := WState _ _).
  assert (H1 : data s1 !! datum = Some (VList [])) by apply lookup_insert_eq.
  clearbody s1.
  apply wp_bind.
  apply (wp_mono _ (fun _ s' => exists ls, labels found = Ok ls
                                /\ data s' !! datum = Some (VList ls))).
  - unfold labels. destruct (truthy found); cbn [when].
    + apply wp_bind, wp_lift. intros items Hitems. rewrite Hitems.
      eapply wp_mono; [apply (wp_collect label_of datum); [|exact H1]|].
      * intros x acc s0 Hacc. by apply wp_label.
      * cbv beta. intros [] s2 (ls & Hls & H2). by exists ls.
    + apply wp_ret. by exists [].
  - intros [] s2 (ls & Hls & H2).
    eapply wp_mono; [by apply (wp_joinIfExtant datum ls)|].
    cbv beta. intros [] s3 (entries & -> & H3). by exists found, entries.
Qed.

(** the [gene_models] lookup, when it returns, leaves the list of the
    protein identifiers of the answer *)
Lemma wp_protein_ids geneID s :
  wp (protein_ids net geneID)
     (fun _ s' => exists geneModels ids,
        response net GENE_BASE (VStr geneID) "gene_models" = Ok geneModels
        /\ proteins geneModels = Ok ids
        /\ data s' !! "protein_id" = Some (VList ids)) s.
Proof.
  unfold protein_ids.
  apply wp_bind, wp_fetch. intros i gm [= <-] Hgm.
  apply wp_bind, wp_set_data.
  set (s1 := WState _ _).
  assert (H1 : data s1 !! "protein_id" = Some (VList [])) by apply lookup_insert_eq.
  clearbody s1.
  unfold nonempty_with.
  apply wp_bind, wp_and_then, wp_ret.
  destruct (truthy gm) eqn:Htruthy.
  - apply wp_lift. intros c Hc. destruct c; cbn [when].
    + apply wp_bind, wp_lift. intros table Ht.
      apply wp_bind, wp_lift. intros items Hitems.
      eapply wp_mono; [apply (wp_collect protein_of "protein_id"); [|exact H1]|].
      * intros x acc s0 Hacc. by apply wp_protein.
      * cbv beta. intros [] s2 (ls & Hls & H2). exists gm, ls.
        unfold proteins. by rewrite Htruthy, Hc, Ht, Hitems.
    + apply wp_ret. exists gm, []. unfold proteins. by rewrite Htruthy, Hc.
  - cbn [when]. apply wp_ret. exists gm, []. unfold proteins. by rewrite Htruthy.
Qed.

(** the [best_human_ortholog] step, when it returns, has collected the
    descriptions for the protein identifiers, one after the other *)
Lemma wp_best_human_ortholog ids s :
  data s !! "protein_id" = Some (VList ids) ->
  wp (best_human_ortholog net)
     (fun _ s' => exists ds, collect (description_of net) ids = Ok ds
                  /\ data s' !! "best_human_ortholog" = Some (VList ds)) s.
Proof.
  intros Hids. unfold best_human_ortholog.
  apply wp_bind, wp_set_data.
  set (s1 := WState _ _).
  assert (H1 : data s1 !! "best_human_ortholog" = Some (VList []))
    by apply lookup_insert_eq.
  assert (Hids1 : data s1 !! "protein_id" = Some (VList ids))
    by (subst s1; cbn [data]; by rewrite lookup_insert_ne).
  clearbody s1.
  apply wp_bind, wp_get_data. intros p Hp. rewrite Hids1 in Hp. injection Hp as <-.
  apply wp_bind, wp_get_data. intros p Hp. rewrite Hids1 in Hp. injection Hp as <-.
  cbn [isinstance_str negb]. rewrite andb_true_r.
  destruct ids as [|x ids]; cbn [truthy].
  - apply wp_bind, wp_get_data. intros p Hp. rewrite Hids1 in Hp. injection Hp as <-.
    cbn [truthy when]. apply wp_ret. by exists [].
  - apply wp_bind, wp_get_data. intros p Hp. rewrite Hids1 in Hp. injection Hp as <-.
    apply wp_bind, wp_lift. intros items [= <-].
    eapply wp_mono;
      [apply (wp_collect (description_of net) "best_human_ortholog"); [|exact H1]|].
    + intros y acc s0 Hacc. by apply wp_best_human_match.
    + cbv beta. intros [] s2 (ls & Hls & H2). by exists ls.
Qed.

End Collecting.

(** ** WormData.populate: the joined fields *)

Lemma wp_skip {St A B} (m : M St A) (f : A -> M St B) (Q : B -> St -> Prop) s :
  (forall a s', wp (f a) Q s') -> wp (bind m f) Q s.
Proof. intros H. apply wp_bind. intros a s' _. apply H. Qed.

Ltac skip := apply wp_skip; intros ? ?.

Section Joined.

Variable net : string -> reply.
Variable database : gmap string (gmap string string).

Lemma populate_ortholog_fields dbId geneID s :
  String.prefix "WBGene" geneID = true ->
  wp (populate net database dbId geneID)
     (fun _ s' => ortholog_field net geneID "human_orthologs" (data s')
                  /\ ortholog_field net geneID "nematode_orthologs" (data s')
                  /\ ortholog_field net geneID "other_orthologs" (data s')) s.
Proof.
  intros Hp. unfold populate.
  rewrite Hp, (prefix_nonempty "WBGene" geneID) by done. cbn [andb when].
  do 8 skip.
  apply wp_bind. eapply wp_mono; [apply wp_orthologs|]. cbv beta.
  intros [] s1 (fh & eh & Hfh & Hlh & Hh).
  apply wp_bind. eapply wp_mono.
  { apply wp_and; [apply wp_orthologs|].
    apply (keeps_wp (fun d => d !! "human_orthologs" = Some (joined eh)));
      [keeps_populate | exact Hh]. }
  cbv beta. intros [] s2 ((fn & en & Hfn & Hln & Hn) & Hh2).
  apply wp_bind. eapply wp_mono.
  { apply wp_and; [apply wp_orthologs|]. apply wp_and.
    - apply (keeps_wp (fun d => d !! "human_orthologs" = Some (joined eh)));
        [keeps_populate | exact Hh2].
    - apply (keeps_wp (fun d => d !! "nematode_orthologs" = Some (joined en)));
        [keeps_populate | exact Hn]. }
  cbv beta. intros [] s3 ((fo & eo & Hfo & Hlo & Ho) & Hh3 & Hn3).
  eapply wp_mono.
  { apply wp_and; [|apply wp_and].
    - apply (keeps_wp (fun d => d !! "human_orthologs" = Some (joined eh)));
        [keeps_populate | exact Hh3].
    - apply (keeps_wp (fun d => d !! "nematode_orthologs" = Some (joined en)));
        [keeps_populate | exact Hn3].
    - apply (keeps_wp (fun d => d !! "other_orthologs" = Some (joined eo)));
        [keeps_populate | exact Ho]. }
  cbv beta. intros [] s4 (Hh4 & Hn4 & Ho4).
  split; [by exists fh, eh | split; [by exists fn, en | by exists fo, eo]].
Qed.

Lemma populate_protein_fields dbId geneID s :
  String.prefix "WBGene" geneID = true ->
  wp (populate net database dbId geneID)
     (fun _ s' => protein_fields net geneID (map VStr) (data s')) s.
Proof.
  intros Hp. unfold populate.
  rewrite Hp, (prefix_nonempty "WBGene" geneID) by done. cbn [andb when].
  do 6 skip.
  apply wp_bind. eapply wp_mono; [apply wp_protein_ids|]. cbv beta.
  intros [] s1 (gm & ids & Hgm & Hids & H1).
  pose (P := fun d : gmap string value => d !! "protein_id" = Some (VList ids)).
  apply wp_bind. eapply wp_mono; [apply (keeps_wp P); [keeps_populate | exact H1]|].
  cbv beta. intros [] s2 H2.
  apply wp_bind. eapply wp_mono; [apply (keeps_wp P); [keeps_populate | exact H2]|].
  cbv beta. intros [] s3 H3.
  apply wp_bind. eapply wp_mono; [apply (keeps_wp P); [keeps_populate | exact H3]|].
  cbv beta. intros [] s4 H4.
  apply wp_bind. eapply wp_mono; [apply (keeps_wp P); [keeps_populate | exact H4]|].
  cbv beta. intros [] s5 H5.
  apply wp_bind. eapply wp_mono.
  { apply wp_and; [by apply (wp_best_human_ortholog net ids)|].
    apply (keeps_wp P); [keeps_populate | exact H5]. }
  cbv beta. intros [] s6 ((ds & Hds & Hb6) & H6).
  apply wp_bind. eapply wp_mono.
  { apply wp_and; [by apply (wp_joinIfExtant "protein_id" ids)|].
    apply (keeps_wp (fun d => d !! "best_human_ortholog" = Some (VList ds)));
      [keeps_populate | exact Hb6]. }
  cbv beta. intros [] s7 ((ps & -> & Hp7) & Hb7).
  eapply wp_mono.
  { apply wp_and; [by apply (wp_joinIfExtant "best_human_ortholog" ds)|].
    apply (keeps_wp (fun d => d !! "protein_id" = Some (joined ps)));
      [keeps_populate | exact Hp7]. }
  cbv beta. intros [] s8 ((descs & -> & Hb8) & Hp8).
  by exists gm, ps, descs.
Qed.

End Joined.

Section JoinedPy3.

Variable net : string -> reply.
Variable database : gmap string (gmap string string).

Lemma populate_ortholog_fields_py3 xlocID geneID s :
  wp (Py3.populate net database xlocID geneID)
     (fun _ s' => ortholog_field net geneID "human_orthologs" (data s')
                  /\ ortholog_field net geneID "nematode_orthologs" (data s')
                  /\ ortholog_field net geneID "other_orthologs" (data s')) s.
Proof.
  unfold Py3.populate.
  do 9 skip.
  apply wp_bind. eapply wp_mono; [apply wp_orthologs|]. cbv beta.
  intros [] s1 (fh & eh & Hfh & Hlh & Hh).
  apply wp_bind. eapply wp_mono.
  { apply wp_and; [apply wp_orthologs|].
    apply (keeps_wp (fun d => d !! "human_orthologs" = Some (joined eh)));
      [keeps_populate | exact Hh]. }
  cbv beta. intros [] s2 ((fn & en & Hfn & Hln & Hn) & Hh2).
  apply wp_bind. eapply wp_mono.
  { apply wp_and; [apply wp_orthologs|]. apply wp_and.
    - apply (keeps_wp (fun d => d !! "human_orthologs" = Some (joined eh)));
        [keeps_populate | exact Hh2].
    - apply (keeps_wp (fun d => d !! "nematode_orthologs" = Some (joined en)));
        [keeps_populate | exact Hn]. }
  cbv beta. intros [] s3 ((fo & eo & Hfo & Hlo & Ho) & Hh3 & Hn3).
  eapply wp_mono.
  { apply wp_and; [|apply wp_and].
    - apply (keeps_wp (fun d => d !! "human_orthologs" = Some (joined eh)));
        [keeps_populate | exact Hh3].
    - apply (keeps_wp (fun d => d !! "nematode_orthologs" = Some (joined en)));
        [keeps_populate | exact Hn3].
    - apply (keeps_wp (fun d => d !! "other_orthologs" = Some (joined eo)));
        [keeps_populate | exact Ho]. }
  cbv beta. intros [] s4 (Hh4 & Hn4 & Ho4).
  split; [by exists fh, eh | split; [by exists fn, en | by exists fo, eo]].
Qed.

Lemma getitem_ok (v x : value) (k : string) :
  getitem v k = Ok x -> truthy v = true /\ contains k v = Ok true.
Proof.
  destruct v as [| | | | |d]; try discriminate. cbn [getitem contains truthy].
  destruct (assoc k d) eqn:E; [|discriminate]. intros _.
  split; [|reflexivity]. by destruct d.
Qed.

Lemma wp_protein_ids_py3 geneID s :
  wp (Py3.protein_ids net geneID)
     (fun _ s' => exists geneModels ids,
        response net GENE_BASE (VStr geneID) "gene_models" = Ok geneModels
        /\ proteins geneModels = Ok (map VStr ids)
        /\ data s' !! "protein_id" = Some (joined ids)) s.
Proof.
  unfold Py3.protein_ids.
  apply wp_bind, wp_fetch. intros i gm [= <-] Hgm.
  apply wp_bind, wp_set_data.
  set (s1 := WState _ _).
  assert (H1 : data s1 !! "protein_id" = Some (VList [])) by apply lookup_insert_eq.
  clearbody s1.
  apply wp_bind, wp_lift. intros table Ht.
  apply wp_bind, wp_lift. intros items Hitems.
  apply wp_bind.
  eapply wp_mono; [apply (wp_collect protein_of "protein_id"); [|exact H1]|].
  - intros x acc s0 Hacc. by apply wp_protein.
  - cbv beta. intros [] s2 (ls & Hls & H2).
    eapply wp_mono; [by apply (wp_joinIfExtant "protein_id" ls)|].
    cbv beta. intros [] s3 (ps & -> & H3). exists gm, ps.
    split; [exact Hgm | split; [|exact H3]].
    unfold proteins. destruct (getitem_ok _ _ _ Ht) as [-> ->].
    by rewrite Ht, Hitems.
Qed.

Lemma wp_best_human_ortholog_py3 ps s :
  data s !! "protein_id" = Some (joined ps) ->
  wp (Py3.best_human_ortholog net)
     (fun _ s' => exists descs,
        collect (description_of net) (characters ps) = Ok (map VStr descs)
        /\ data s' !! "best_human_ortholog" = Some (joined descs)) s.
Proof.
  intros Hps. unfold Py3.best_human_ortholog.
  apply wp_bind, wp_set_data.
  set (s1 := WState _ _).
  assert (H1 : data s1 !! "best_human_ortholog" = Some (VList []))
    by apply lookup_insert_eq.
  assert (Hps1 : data s1 !! "protein_id" = Some (joined ps))
    by (subst s1; cbn [data]; by rewrite lookup_insert_ne).
  clearbody s1.
  apply wp_bind, wp_get_data. intros p Hp. rewrite Hps1 in Hp. injection Hp as <-.
  apply wp_bind.
  apply (wp_mono _ (fun _ s' => exists ls,
           collect (description_of net) (characters ps) = Ok ls
           /\ data s' !! "best_human_ortholog" = Some (VList ls))).
  - destruct ps as [|p ps]; cbn [joined Py3.has_len isinstance_str negb andb].
    + apply wp_bind, wp_get_data. intros v Hv. rewrite Hps1 in Hv. injection Hv as <-.
      apply wp_bind, wp_lift. intros ? [=].
    + apply wp_bind, wp_get_data. intros v Hv. rewrite Hps1 in Hv. injection Hv as <-.
      apply wp_bind, wp_lift. intros items [= <-].
      eapply wp_mono;
        [apply (wp_collect (description_of net) "best_human_ortholog"); [|exact H1]|].
      * intros y acc s0 Hacc. by apply wp_best_human_match.
      * cbv beta. intros [] s2 (ls & Hls & H2). by exists ls.
  - intros [] s2 (ls & Hls & H2).
    eapply wp_mono; [by apply (wp_joinIfExtant "best_human_ortholog" ls)|].
    cbv beta. intros [] s3 (descs & -> & H3). by exists descs.
Qed.

Lemma populate_protein_fields_py3 xlocID geneID s :
  wp (Py3.populate net database xlocID geneID)
     (fun _ s' => protein_fields net geneID characters (data s')) s.
Proof.
  unfold Py3.populate.
  do 6 skip.
  apply wp_bind. eapply wp_mono; [apply wp_protein_ids_py3|]. cbv beta.
  intros [] s1 (gm & ps & Hgm & Hids & H1).
  pose (P := fun d : gmap string value => d !! "protein_id" = Some (joined ps)).
  apply wp_bind. eapply wp_mono; [apply (keeps_wp P); [keeps_populate | exact H1]|].
  cbv beta. intros gc s2 H2.
  apply wp_bind. eapply wp_mono; [apply (keeps_wp P); [keeps_populate | exact H2]|].
  cbv beta. intros [] s3 H3.
  apply wp_bind. eapply wp_mono; [apply (keeps_wp P); [keeps_populate | exact H3]|].
  cbv beta. intros [] s4 H4.
  apply wp_bind. eapply wp_mono; [apply (keeps_wp P); [keeps_populate | exact H4]|].
  cbv beta. intros [] s5 H5.
  apply wp_bind. eapply wp_mono; [apply (keeps_wp P); [keeps_populate | exact H5]|].
  cbv beta. intros [] s6 H6.
  eapply wp_mono.
  { apply wp_and; [by apply (wp_best_human_ortholog_py3 ps)|].
    apply (keeps_wp P); [keeps_populate | exact H6]. }
  cbv beta. intros [] s7 ((descs & Hds & Hb7) & H7).
  by exists gm, ps, descs.
Qed.

End JoinedPy3.

Lemma join_or_none_run (datum : string) (entries : list string) (s : wstate) :
  data s !! datum = Some (VList (map VStr entries)) ->
  Py3.join_or_none datum s
  = (Ok tt, WState (trace s) (<[datum := joined entries]> (data s))).
Proof.
  intros Hd. unfold Py3.join_or_none, bind, get_data, lift, set_data.
  rewrite Hd. cbn [len]. rewrite length_map.
  destruct entries as [|e entries]; [reflexivity|].
  cbn [length Nat.eqb]. rewrite Hd. unfold join. cbn [iterate].
  by rewrite strings_of_map.
Qed.

(** C6: in a record the constructor returns, each of the five collected
    fields holds its entries joined by [", "] in the order of the answer,
    or [None] when there is no entry: the three ortholog fields hold the
    labels of their answers, [protein_id] the protein identifiers of the
    [gene_models] answer, [best_human_ortholog] the descriptions found by
    the [best_human_match] lookups that were made.  The joining code of
    either rendition, [joinIfExtant] and the four lines python3/WormCSV.py
    repeats, returns on every list of strings with the strings joined. *)
Theorem joined_fields net database dbId geneID s s' :
  (String.prefix "WBGene" geneID = true ->
   WormData net database dbId geneID s = (Ok tt, s') ->
     ortholog_field net geneID "human_orthologs" (describe s')
     /\ ortholog_field net geneID "nematode_orthologs" (describe s')
     /\ ortholog_field net geneID "other_orthologs" (describe s')
     /\ protein_fields net geneID (map VStr) (describe s'))
  /\ (Py3.WormData net database dbId geneID s = (Ok tt, s') ->
     ortholog_field net geneID "human_orthologs" (describe s')
     /\ ortholog_field net geneID "nematode_orthologs" (describe s')
     /\ ortholog_field net geneID "other_orthologs" (describe s')
     /\ protein_fields net geneID characters (describe s'))
  /\ (forall datum entries s0,
        data s0 !! datum = Some (VList (map VStr entries)) ->
        joinIfExtant datum s0
        = (Ok tt, WState (trace s0) (<[datum := joined entries]> (data s0))))
  /\ (forall datum entries s0,
        data s0 !! datum = Some (VList (map VStr entries)) ->
        Py3.join_or_none datum s0
        = (Ok tt, WState (trace s0) (<[datum := joined entries]> (data s0)))).
Proof.
  split; [|split; [|split]].
  - intros Hp Hrun. unfold WormData in Hrun.
    apply bind_ok in Hrun as ([] & s1 & [= <-] & Hrun).
    destruct (populate_ortholog_fields net database dbId geneID _ Hp tt s' Hrun)
      as (Hh & Hn & Ho).
    pose proof (populate_protein_fields net database dbId geneID _ Hp tt s' Hrun).
    by repeat split.
  - intros Hrun. unfold Py3.WormData in Hrun.
    apply bind_ok in Hrun as ([] & s1 & [= <-] & Hrun).
    destruct (populate_ortholog_fields_py3 net database dbId geneID _ tt s' Hrun)
      as (Hh & Hn & Ho).
    pose proof (populate_protein_fields_py3 net database dbId geneID _ tt s' Hrun).
    by repeat split.
  - intros datum entries s0. apply joinIfExtant_run.
  - intros datum entries s0. apply join_or_none_run.
Qed.

(** ** The best_human_ortholog step of python2/WormCSV.py *)

Section BestHuman.

Variable net : string -> reply.

Lemma best_human_match_run p acc o s :
  data s !! "best_human_ortholog" = Some (VList acc) ->
  description_of net (VStr p) = Ok o ->
  best_human_match net (VStr p) s
  = (Ok tt, WState (trace s ++ [url_of PROTEIN_BASE p "best_human_match"])
                   (<["best_human_ortholog" := VList (acc ++ option_list o)]> (data s))).
Proof.
  intros Hacc Hd. unfold best_human_match.
  unfold bind at 1. rewrite fetch_run.
  unfold description_of in Hd.
  destruct (response net PROTEIN_BASE (VStr p) "best_human_match") as [m|]; [|discriminate].
  unfold nonempty_with, and_then, bind, ret, lift.
  destruct (truthy m).
  - destruct (contains "description" m) as [[]|]; try discriminate.
    + destruct (getitem m "description") as [d|]; [|discriminate].
      injection Hd as <-. cbn [when].
      unfold append_data, bind, get_data. cbn [logged data trace].
      by rewrite Hacc.
    + injection Hd as <-. cbn [when option_list]. unfold ret, logged.
      rewrite app_nil_r. by rewrite insert_id.
  - injection Hd as <-. cbn [when option_list]. unfold ret, logged.
    rewrite app_nil_r. by rewrite insert_id.
Qed.

Lemma best_human_loop_run ps :
  forall acc ds s,
  data s !! "best_human_ortholog" = Some (VList acc) ->
  collect (description_of net) (map VStr ps) = Ok ds ->
  for_each (map VStr ps) (best_human_match net) s
  = (Ok tt, WState (trace s ++ map (fun p => url_of PROTEIN_BASE p "best_human_match") ps)
                   (<["best_human_ortholog" := VList (acc ++ ds)]> (data s))).
Proof.
  induction ps as [|p ps IH]; intros acc ds s Hacc Hds; simpl in *.
  - injection Hds as <-. unfold ret. rewrite !app_nil_r, insert_id by done.
    by destruct s.
  - destruct (description_of net (VStr p)) as [o|] eqn:Ho; [|discriminate].
    destruct (collect (description_of net) (map VStr ps)) as [l|] eqn:Hl; [|discriminate].
    injection Hds as <-.
    unfold bind. rewrite (best_human_match_run p acc o s Hacc Ho).
    rewrite (IH (acc ++ option_list o) l); [|apply lookup_insert_eq | reflexivity].
    cbn [trace data]. rewrite insert_insert_eq. by rewrite <- !app_assoc.
Qed.

Lemma get_data_run k v s : data s !! k = Some v -> get_data k s = (Ok v, s).
Proof. unfold get_data. by intros ->. Qed.

(** python2/WormCSV.py: for every list of collected protein identifiers,
    when none of the lookups raises, the step makes exactly one
    [best_human_match] request per identifier, in order, and gathers the
    descriptions found into the one list [best_human_ortholog] *)
Lemma best_human_ortholog_run (ps : list string) (ds : list value) (s : wstate) :
  data s !! "protein_id" = Some (VList (map VStr ps)) ->
  collect (description_of net) (map VStr ps) = Ok ds ->
  best_human_ortholog net s
  = (Ok tt, WState (trace s ++ map (fun p => url_of PROTEIN_BASE p "best_human_match") ps)
                   (<["best_human_ortholog" := VList ds]> (data s))).
Proof.
  intros Hps Hds. unfold best_human_ortholog.
  unfold bind at 1. cbn [set_data].
  set (s1 := WState _ _).
  assert (H1 : data s1 !! "best_human_ortholog" = Some (VList []))
    by apply lookup_insert_eq.
  assert (Hps1 : data s1 !! "protein_id" = Some (VList (map VStr ps)))
    by (subst s1; cbn [data]; by rewrite lookup_insert_ne).
  rewrite (bind_run _ _ _ _ _ (get_data_run _ _ _ Hps1)).
  rewrite (bind_run _ _ _ _ _ (get_data_run _ _ _ Hps1)).
  cbn [isinstance_str negb]. rewrite andb_true_r.
  destruct ps as [|p ps].
  - cbn [map truthy]. rewrite (bind_run _ _ _ _ _ (get_data_run _ _ _ Hps1)).
    cbn [map truthy when ret].
    injection Hds as <-. subst s1. cbn [trace data]. by rewrite app_nil_r.
  - change (truthy (VList (map VStr (p :: ps)))) with true. cbv iota.
    rewrite (bind_run _ _ _ _ _ (get_data_run _ _ _ Hps1)).
    unfold bind at 1. cbn [lift iterate].
    rewrite (best_human_loop_run (p :: ps) [] ds s1 H1 Hds).
    subst s1. cbn [trace data app]. by rewrite insert_insert_eq.
Qed.

End BestHuman.

(** ** OutputCSV.write *)

Lemma remove_first_In x l : In x l -> remove_first x l = Some (drop_first x l).
Proof.
  induction l as [|y l IH]; intros Hin; [destruct Hin|]. simpl.
  destruct (String.eqb_spec x y) as [->|Hne]; [reflexivity|].
  destruct Hin as [->|Hin]; [congruence|]. by rewrite IH.
Qed.

Lemma remove_first_length x l l' : remove_first x l = Some l' -> S (length l') = length l.
Proof.
  revert l'. induction l as [|y l IH]; intros l'; simpl; [discriminate|].
  destruct (String.eqb x y); [by intros [= <-]|].
  destruct (remove_first x l) as [r|]; [|discriminate].
  intros [= <-]. simpl. by rewrite (IH r).
Qed.

Lemma remove_first_not_In x l : ~ In x l -> remove_first x l = None.
Proof.
  induction l as [|y l IH]; intros Hn; [reflexivity|]. simpl in *.
  destruct (String.eqb_spec x y) as [->|Hne]; [tauto|].
  rewrite IH; tauto.
Qed.

Lemma drop_first_In x y l : x <> y -> In y l -> In y (drop_first x l).
Proof.
  intros Hne. induction l as [|z l IH]; intros Hin; [destruct Hin|]. simpl.
  destruct (String.eqb_spec x z) as [->|Hxz].
  - destruct Hin as [->|Hin]; [congruence | exact Hin].
  - destruct Hin as [->|Hin]; [by left | right; by apply IH].
Qed.

Lemma drop_first_subset x y l : In y (drop_first x l) -> In y l.
Proof.
  induction l as [|z l IH]; simpl; [tauto|].
  destruct (String.eqb x z); simpl; tauto.
Qed.

Lemma drop_first_NoDup x l : List.NoDup l -> ~ In x (drop_first x l).
Proof.
  induction 1 as [|z l Hz Hnd IH]; simpl; [tauto|].
  destruct (String.eqb_spec x z) as [->|Hne]; [exact Hz|].
  simpl. intros [->|Hin]; [congruence | by apply IH].
Qed.


Lemma trimmed_length hs :
  In "db_id" hs -> In "up/down" hs -> length (trimmed hs) + 2 = length hs.
Proof.
  intros Hdb Hud. unfold trimmed.
  assert (Hud' : In "up/down" (drop_first "db_id" hs))
    by (apply drop_first_In; [discriminate | exact Hud]).
  pose proof (remove_first_length _ _ _ (remove_first_In _ _ Hdb)).
  pose proof (remove_first_length _ _ _ (remove_first_In _ _ Hud')).
  lia.
Qed.

Lemma has_XLOC_id_spec w :
  db_id_is_str w ->
  exists b, has_XLOC_id w = Ok b /\ (b = true <-> uses_XLOC w).
Proof.
  intros Hstr. unfold has_XLOC_id, uses_XLOC.
  destruct (Nat.eqb_spec (size w) 0) as [Hz|Hnz].
  - exists false. split; [reflexivity|]. split; [discriminate|].
    intros (i & Hi & _). apply map_size_empty_iff in Hz. subst w.
    by rewrite lookup_empty in Hi.
  - destruct (w !! "db_id") as [v|] eqn:E.
    + destruct (Hstr v E) as (i & ->). cbn [startswith].
      exists (String.prefix "XLOC" i). split; [reflexivity|]. split.
      * intros Hp. by exists i.
      * by intros (i' & [= <-] & Hp).
    + exists false. split; [reflexivity|]. split; [discriminate|].
      by intros (i & Hi & _).
Qed.

Lemma exclusivelyWBIds_spec ws :
  Forall db_id_is_str ws ->
  forall flag, exists b, exclusivelyWBIds flag ws = Ok b
    /\ (b = true <-> flag = true /\ Forall (fun w => ~ uses_XLOC w) ws).
Proof.
  induction 1 as [|w ws Hw Hws IH]; intros flag; simpl.
  - exists flag. split; [reflexivity|]. split; [by split | tauto].
  - destruct flag.
    + destruct (has_XLOC_id_spec w Hw) as (b & -> & Hb). destruct b.
      * destruct (IH false) as (b' & Hb' & Hiff). exists b'. split; [exact Hb'|].
        split.
        -- intros Ht. destruct (proj1 Hiff Ht) as [? _]. discriminate.
        -- intros [_ Hall]. inversion Hall as [|? ? Hnx _]; subst.
           exfalso. apply Hnx. by apply Hb.
      * destruct (IH true) as (b' & Hb' & Hiff). exists b'. split; [exact Hb'|].
        split.
        -- intros Ht. destruct (proj1 Hiff Ht) as [_ Hall]. split; [reflexivity|].
           constructor; [|exact Hall]. intros Hx. apply Hb in Hx. discriminate.
        -- intros [_ Hall]. inversion Hall; subst. apply Hiff. by split.
    + destruct (IH false) as (b' & Hb' & Hiff). exists b'. split; [exact Hb'|].
      split.
      * intros Ht. destruct (proj1 Hiff Ht) as [? _]. discriminate.
      * intros [? _]. discriminate.
Qed.

Lemma no_XLOC_scan ws :
  Forall db_id_is_str ws -> Forall (fun w => ~ uses_XLOC w) ws ->
  exclusivelyWBIds true ws = Ok true.
Proof.
  intros Hstr Hno. destruct (exclusivelyWBIds_spec ws Hstr true) as (b & Hb & Hiff).
  rewrite Hb. f_equal. by apply Hiff.
Qed.

Lemma wp_deref r (Q : list string -> world -> Prop) w :
  (forall l, lists w !! r = Some l -> Q l w) -> wp (deref r) Q w.
Proof.
  intros H l w'. unfold deref. destruct (lists w !! r) eqn:E; intros [= <- <-].
  by apply H.
Qed.

Lemma wp_list_remove r x (Q : unit -> world -> Prop) w :
  (forall l l', lists w !! r = Some l -> remove_first x l = Some l' ->
     Q tt (World (<[r := l']> (lists w)) (files w))) ->
  wp (list_remove r x) Q w.
Proof.
  intros H. unfold list_remove. apply wp_bind, wp_deref. intros l Hl.
  destruct (remove_first x l) as [l'|] eqn:E; [|apply wp_raise].
  intros [] w' [= <-]. by apply (H l l').
Qed.

(** *** The lines of the records *)

Lemma writerow_cases fieldnames (w : gmap string value) :
  (writerow fieldnames w = Ok (cells fieldnames w) /\ fits fieldnames w)
  \/ (writerow fieldnames w = Raise ValueError /\ ~ fits fieldnames w).
Proof.
  unfold writerow, fits.
  destruct (forallb _ _) eqn:E.
  - left. split; [reflexivity|]. intros k [v Hv].
    rewrite forallb_forall in E.
    assert (Hin : In k (map fst (map_to_list w))).
    { apply in_map_iff. exists (k, v). split; [reflexivity|].
      apply list_elem_of_In. by apply elem_of_map_to_list. }
    apply E, existsb_exists in Hin as (k' & Hk' & Heq).
    apply String.eqb_eq in Heq. by subst.
  - right. split; [reflexivity|]. intros Hfit.
    assert (Ht : forallb (fun k => existsb (String.eqb k) fieldnames)
                   (map fst (map_to_list w)) = true); [|congruence].
    apply forallb_forall. intros k Hin.
    apply in_map_iff in Hin as ([k0 v] & <- & Hin). simpl.
    apply list_elem_of_In, elem_of_map_to_list in Hin.
    apply existsb_exists. exists k0. split; [|apply String.eqb_refl].
    apply Hfit. by rewrite Hin.
Qed.

(** the loop over the records either takes them all, or stops at the first
    one with a field that is no column, the lines before it written *)
Lemma rows_outcome_cases fieldnames (ws : list (gmap string value)) :
  (rows_outcome fieldnames ws = Ok tt
     /\ Forall (fits fieldnames) ws
     /\ rows_written fieldnames ws = map (cells fieldnames) ws)
  \/ (rows_outcome fieldnames ws = Raise ValueError
     /\ exists pre x post, ws = pre ++ x :: post
          /\ Forall (fits fieldnames) pre /\ ~ fits fieldnames x
          /\ rows_written fieldnames ws = map (cells fieldnames) pre).
Proof.
  induction ws as [|w ws IH]; simpl.
  - left. by repeat split.
  - destruct (writerow_cases fieldnames w) as [[-> Hw]|[-> Hw]].
    + destruct IH as [(-> & Hws & ->)|(-> & pre & x & post & -> & Hpre & Hx & ->)].
      * left. split; [reflexivity | split; [by constructor | reflexivity]].
      * right. split; [reflexivity|]. exists (w :: pre), x, post.
        split; [reflexivity | split; [by constructor | by split]].
    + right. split; [reflexivity|]. exists [], w, ws. by repeat split.
Qed.


Lemma rows_run path fieldnames (ws : list (gmap string value)) :
  forall w ls, files w !! path = Some ls ->
  for_each ws (fun wormData =>
    row <- lift (writerow fieldnames wormData) ;; write_line path row) w
  = (rows_outcome fieldnames ws,
     World (lists w) (<[path := ls ++ rows_written fieldnames ws]> (files w))).
Proof.
  induction ws as [|x ws IH]; intros w ls Hls; simpl.
  - unfold ret. rewrite app_nil_r, insert_id by done. by destruct w.
  - unfold bind at 1. unfold bind at 1. unfold lift.
    destruct (writerow fieldnames x) as [row|e].
    + unfold write_line at 1. rewrite Hls. cbn [default].
      rewrite (IH _ (ls ++ [row])); [|apply lookup_insert_eq].
      cbn [lists files]. by rewrite insert_insert_eq, <- app_assoc.
    + rewrite app_nil_r, insert_id by done. by destruct w.
Qed.

(** from the opening of the file on, for the header as it then stands *)
Lemma write_file_run can_open self ws w final :
  lists w !! headers self = Some final ->
  (open_file can_open (path self) ;;;
   fieldnames <- deref (headers self) ;;
   write_line (path self) (map VStr fieldnames) ;;;
   for_each ws (fun wormData =>
     row <- lift (writerow fieldnames wormData) ;;
     write_line (path self) row)) w
  = if can_open (path self)
    then (rows_outcome final ws,
          World (lists w)
            (<[path self := map VStr final :: rows_written final ws]> (files w)))
    else (Raise IOError, w).
Proof.
  intros Hl. unfold bind at 1, open_file.
  destruct (can_open (path self)); [|reflexivity].
  unfold bind at 1, deref. cbn [lists]. rewrite Hl.
  unfold bind at 1, write_line at 1. cbn [lists files].
  rewrite lookup_insert_eq. cbn [default app].
  rewrite (rows_run (path self) final ws _ [map VStr final]);
    [|apply lookup_insert_eq].
  cbn [lists files app]. by rewrite !insert_insert_eq.
Qed.

Lemma list_remove_run r x l w :
  lists w !! r = Some l -> In x l ->
  list_remove r x w = (Ok tt, World (<[r := drop_first x l]> (lists w)) (files w)).
Proof.
  intros Hl Hin. unfold list_remove, bind, deref. rewrite Hl.
  by rewrite (remove_first_In _ _ Hin).
Qed.

Lemma trim_run r hs w :
  lists w !! r = Some hs -> In "db_id" hs -> In "up/down" hs ->
  (list_remove r "db_id" ;;; list_remove r "up/down") w
  = (Ok tt, World (<[r := trimmed hs]> (lists w)) (files w)).
Proof.
  intros Hh Hdb Hud.
  rewrite (bind_run _ _ _ _ _ (list_remove_run r "db_id" hs w Hh Hdb)).
  rewrite (list_remove_run r "up/down" (drop_first "db_id" hs)).
  - cbn [lists files]. by rewrite insert_insert_eq.
  - apply lookup_insert_eq.
  - apply drop_first_In; [discriminate | exact Hud].
Qed.

(** the header [write] settles on, and how it ends *)
Lemma write_outcome can_open self ws w hs :
  lists w !! headers self = Some hs ->
  In "db_id" hs -> In "up/down" hs ->
  Forall db_id_is_str ws ->
  exists final,
    ((Forall (fun w => ~ uses_XLOC w) ws /\ final = trimmed hs)
     \/ (~ Forall (fun w => ~ uses_XLOC w) ws /\ final = hs))
    /\ write can_open self ws w
       = if can_open (path self)
         then (rows_outcome final ws,
               World (<[headers self := final]> (lists w))
                 (<[path self := map VStr final :: rows_written final ws]> (files w)))
         else (Raise IOError, World (<[headers self := final]> (lists w)) (files w)).
Proof.
  intros Hh Hdb Hud Hstr.
  destruct (exclusivelyWBIds_spec ws Hstr true) as (b & Hb & Hiff).
  assert (Hscan : lift (exclusivelyWBIds true ws) w = (Ok b, w))
    by (unfold lift; by rewrite Hb).
  unfold write. rewrite (bind_run _ _ _ _ _ Hscan).
  destruct b; cbn [when].
  - exists (trimmed hs). split; [left; split; [by apply Hiff | reflexivity]|].
    rewrite (bind_run _ _ _ _ _ (trim_run (headers self) hs w Hh Hdb Hud)).
    rewrite (write_file_run can_open self ws _ (trimmed hs));
      [|apply lookup_insert_eq].
    by destruct (can_open (path self)).
  - exists hs. split.
    { right. split; [|reflexivity]. intros Hall.
      assert (false = true) by (apply Hiff; by split). discriminate. }
    rewrite (insert_id (lists w) _ _ Hh).
    rewrite (bind_run (ret tt) _ w tt w eq_refl).
    rewrite (write_file_run can_open self ws w hs Hh).
    destruct (can_open (path self)); [reflexivity | by destruct w].
Qed.

(** [write] on a header that lacks a column it wants to take out *)
Lemma write_without_db_id can_open self ws w hs :
  lists w !! headers self = Some hs ->
  exclusivelyWBIds true ws = Ok true ->
  ~ In "db_id" hs ->
  write can_open self ws w = (Raise ValueError, w).
Proof.
  intros Hh Hb Hdb. unfold write, bind at 1, lift. rewrite Hb. cbn [when].
  unfold list_remove, bind, deref. rewrite Hh.
  by rewrite (remove_first_not_In _ _ Hdb).
Qed.

Lemma write_without_up_down can_open self ws w hs :
  lists w !! headers self = Some hs ->
  exclusivelyWBIds true ws = Ok true ->
  In "db_id" hs -> ~ In "up/down" hs ->
  write can_open self ws w
  = (Raise ValueError,
     World (<[headers self := drop_first "db_id" hs]> (lists w)) (files w)).
Proof.
  intros Hh Hb Hdb Hud. unfold write, bind at 1, lift. rewrite Hb. cbn [when].
  unfold bind at 1.
  rewrite (bind_run _ _ _ _ _ (list_remove_run (headers self) "db_id" hs w Hh Hdb)).
  unfold list_remove, bind, deref. cbn [lists]. rewrite lookup_insert_eq.
  rewrite remove_first_not_In; [reflexivity|].
  intros Hin. apply Hud. by apply (drop_first_subset "db_id").
Qed.

(** whatever [write] returns from, the first line of the file is the list
    behind [self.headers], which is no longer than that list was before *)
Lemma write_header_row can_open self ws w l0 :
  lists w !! headers self = Some l0 ->
  wp (write can_open self ws)
     (fun _ w' => exists l rows,
        lists w' !! headers self = Some l
        /\ files w' !! path self = Some (map VStr l :: rows)
        /\ length l <= length l0) w.
Proof.
  intros Hl0. unfold write.
  apply wp_bind, wp_lift. intros flag _.
  apply wp_bind.
  apply (wp_mono _ (fun _ w' => exists l, lists w' !! headers self = Some l
                                /\ length l <= length l0)).
  - apply wp_when; [intros _ | intros _; by exists l0].
    apply wp_bind, wp_list_remove. intros l l1 Hl H1.
    rewrite Hl0 in Hl. injection Hl as <-.
    apply wp_list_remove. intros l l2 Hl H2. cbn [lists] in Hl.
    rewrite lookup_insert_eq in Hl. injection Hl as <-.
    exists l2. split; [apply lookup_insert_eq|].
    apply remove_first_length in H1, H2. lia.
  - intros [] w1 (l & Hl & Hlen) [] w' Hrun.
    rewrite (write_file_run can_open self ws w1 l Hl) in Hrun.
    destruct (can_open (path self)); [|discriminate].
    injection Hrun as _ <-. exists l, (rows_written l ws). cbn [lists files].
    split; [exact Hl | split; [apply lookup_insert_eq | exact Hlen]].
Qed.

(** python2/WormCSV.py, C7: for a header with both columns and records whose
    [db_id], when present, is a string, the two columns are taken out of the
    header exactly when no record has an [XLOC] identifier, and the header is
    left as it is when some record has one; when [write] returns, the file
    holds the header so obtained as its first line, and after it the line of
    every record *)
Lemma write_trims_header can_open self ws w hs :
  lists w !! headers self = Some hs ->
  In "db_id" hs -> In "up/down" hs ->
  Forall db_id_is_str ws ->
  (lists (snd (write can_open self ws w)) !! headers self = Some (trimmed hs)
     <-> Forall (fun w => ~ uses_XLOC w) ws)
  /\ (Exists uses_XLOC ws ->
        lists (snd (write can_open self ws w)) !! headers self = Some hs)
  /\ (fst (write can_open self ws w) = Ok tt ->
        exists l, lists (snd (write can_open self ws w)) !! headers self = Some l
          /\ files (snd (write can_open self ws w)) !! path self
             = Some (map VStr l :: map (cells l) ws)).
Proof.
  intros Hh Hdb Hud Hstr.
  destruct (write_outcome can_open self ws w hs Hh Hdb Hud Hstr)
    as (final & Hfinal & Hrun).
  pose proof (trimmed_length hs Hdb Hud) as Hlen.
  assert (Hl : lists (snd (write can_open self ws w)) !! headers self = Some final).
  { rewrite Hrun. destruct (can_open (path self)); cbn [snd lists];
      apply lookup_insert_eq. }
  rewrite Hl. split; [|split].
  - destruct Hfinal as [[Hall ->]|[Hno ->]]; [tauto|].
    split; [|tauto]. intros [= Heq]. rewrite <- Heq in Hlen. lia.
  - intros Hex. destruct Hfinal as [[Hall ->]|[Hno ->]]; [|reflexivity].
    exfalso. apply Exists_exists in Hex as (x & Hin & Hx).
    rewrite Forall_forall in Hall. by apply (Hall x).
  - rewrite Hrun. destruct (can_open (path self)); cbn [fst snd files]; [|discriminate].
    intros Hok. exists final. split; [reflexivity|].
    rewrite lookup_insert_eq.
    destruct (rows_outcome_cases final ws) as [(_ & _ & ->)|(Hr & _)];
      [reflexivity | congruence].
Qed.

(** C10: [write] changes the list the caller handed to the constructor.
    When the columns are dropped, the list behind the caller's reference is
    two titles shorter once [write] is over, whether or not the file could
    be opened; a later [write] of the same object starts from the shortened
    list, so the header line it writes to the file is never the original
    one, and when the original header had no repeated title and the columns
    are to be dropped again, it stops with [ValueError]. *)
Theorem write_shortens_callers_list (can_open : string -> bool) (path : string)
    (r : ref) (ws : list (gmap string value)) (w : world) (hs : list string) :
  lists w !! r = Some hs ->
  In "db_id" hs -> In "up/down" hs ->
  Forall db_id_is_str ws ->
  Forall (fun w => ~ uses_XLOC w) ws ->
  let self := OutputCSV path r in
  let w' := snd (write can_open self ws w) in
  lists w' !! r = Some (trimmed hs)
  /\ length (trimmed hs) + 2 = length hs
  /\ (forall can_open2 ws2 w'',
        write can_open2 self ws2 w' = (Ok tt, w'') ->
        exists l rows, files w'' !! path = Some (map VStr l :: rows) /\ l <> hs)
  /\ (List.NoDup hs ->
      forall can_open2 ws2,
        Forall db_id_is_str ws2 -> Forall (fun w => ~ uses_XLOC w) ws2 ->
        fst (write can_open2 self ws2 w') = Raise ValueError).
Proof.
  intros Hh Hdb Hud Hstr Hno self w'.
  destruct (write_outcome can_open self ws w hs Hh Hdb Hud Hstr)
    as (final & [[_ ->]|[Hcontra _]] & Hrun); [|tauto].
  assert (Hh' : lists w' !! r = Some (trimmed hs)).
  { subst w'. rewrite Hrun. destruct (can_open _); cbn [snd lists];
      apply (lookup_insert_eq (lists w)). }
  pose proof (trimmed_length hs Hdb Hud) as Hlen.
  split; [exact Hh' | split; [exact Hlen | split]].
  - intros can_open2 ws2 w'' Hrun2.
    destruct (write_header_row can_open2 self ws2 w' (trimmed hs) Hh' tt w'' Hrun2)
      as (l & rows & _ & Hfile & Hle).
    exists l, rows. split; [exact Hfile|]. intros ->. lia.
  - intros Hnd can_open2 ws2 Hstr2 Hno2.
    rewrite (write_without_db_id can_open2 self ws2 w' (trimmed hs));
      [reflexivity | exact Hh' | by apply no_XLOC_scan |].
    unfold trimmed. intros Hin. apply drop_first_subset in Hin.
    by apply (drop_first_NoDup "db_id" hs).
Qed.

(** ** Closed instances *)

(** C4 as stated fails: [sequence_name], [description] and [gene_class] are
    stored as the server sent them, nested or not; python3/WormCSV.py stores
    the whole [gene_class] answer. *)
Lemma stored_values_nested :
  (exists s', WormData nested ∅ None "WBGene00001234" (WState [] ∅) = (Ok tt, s')
     /\ describe s' !! "sequence_name" = Some (VDict [("label", VStr "abc-1")])
     /\ describe s' !! "description" = Some (VList [VStr "a"; VStr "protein"])
     /\ describe s' !! "gene_class" = Some (VDict [("id", VStr "abc")]))
  /\ (exists s', Py3.WormData nested one_row (Some "XLOC_000001") "WBGene00001234"
                   (WState [] ∅) = (Ok tt, s')
     /\ describe s' !! "gene_class"
        = Some (VDict [("tag", VDict [("label", VDict [("id", VStr "abc")])])])).
Proof.
  split; eexists; (split; [vm_compute; reflexivity|]); by vm_compute.
Qed.

(** a run of each rendition on plain answers *)
Lemma stored_values_flat_witness :
  WormData (server [protein_row "P"]) one_row (Some "XLOC_000001")
    "WBGene00001234" (WState [] ∅)
  = (Ok tt, snd (WormData (server [protein_row "P"]) one_row (Some "XLOC_000001")
                   "WBGene00001234" (WState [] ∅)))
  /\ describe (snd (WormData (server [protein_row "P"]) one_row (Some "XLOC_000001")
                      "WBGene00001234" (WState [] ∅))) !! "protein_id"
     = Some (VStr "P")
  /\ (scalar (VStr "P") = true
      \/ In "protein_id" ["sequence_name"; "description"; "gene_class"]).
Proof.
  assert (Hrun : WormData (server [protein_row "P"]) one_row (Some "XLOC_000001")
                   "WBGene00001234" (WState [] ∅)
                 = (Ok tt, snd (WormData (server [protein_row "P"]) one_row
                                  (Some "XLOC_000001") "WBGene00001234" (WState [] ∅))))
    by by vm_compute.
  assert (Hk : describe (snd (WormData (server [protein_row "P"]) one_row
                                (Some "XLOC_000001") "WBGene00001234" (WState [] ∅)))
               !! "protein_id" = Some (VStr "P")) by by vm_compute.
  split; [exact Hrun | split; [exact Hk|]].
  exact (stored_values_flat (server [protein_row "P"]) one_row (Some "XLOC_000001")
           "WBGene00001234" (WState [] ∅) _ (or_introl Hrun) "protein_id" (VStr "P") Hk).
Defined.

Lemma joined_fields_witness :
  (ortholog_field annotated "WBGene00001234" "human_orthologs"
     (describe (snd (WormData annotated one_row (Some "XLOC_000001")
                       "WBGene00001234" (WState [] ∅))))
   /\ protein_fields annotated "WBGene00001234" (map VStr)
        (describe (snd (WormData annotated one_row (Some "XLOC_000001")
                          "WBGene00001234" (WState [] ∅)))))
  /\ (ortholog_field annotated "WBGene00001234" "human_orthologs"
        (describe (snd (Py3.WormData annotated one_row (Some "XLOC_000001")
                          "WBGene00001234" (WState [] ∅))))
      /\ protein_fields annotated "WBGene00001234" characters
           (describe (snd (Py3.WormData annotated one_row (Some "XLOC_000001")
                             "WBGene00001234" (WState [] ∅)))))
  /\ describe (snd (WormData annotated one_row (Some "XLOC_000001")
                      "WBGene00001234" (WState [] ∅)))
       !! "human_orthologs" = Some (VStr "A, B")
  /\ describe (snd (WormData annotated one_row (Some "XLOC_000001")
                      "WBGene00001234" (WState [] ∅)))
       !! "protein_id" = Some (VStr "P, Q")
  /\ describe (snd (Py3.WormData annotated one_row (Some "XLOC_000001")
                      "WBGene00001234" (WState [] ∅)))
       !! "human_orthologs" = Some (VStr "A, B")
  /\ describe (snd (Py3.WormData annotated one_row (Some "XLOC_000001")
                      "WBGene00001234" (WState [] ∅)))
       !! "protein_id" = Some (VStr "P, Q")
  /\ describe (snd (Py3.WormData annotated one_row (Some "XLOC_000001")
                      "WBGene00001234" (WState [] ∅)))
       !! "other_orthologs" = Some VNone.
Proof.
  split; [|split; [|repeat split; by vm_compute]].
  - destruct (joined_fields annotated one_row (Some "XLOC_000001") "WBGene00001234"
                (WState [] ∅)
                (snd (WormData annotated one_row (Some "XLOC_000001")
                        "WBGene00001234" (WState [] ∅)))) as [H2 _].
    destruct (H2 eq_refl ltac:(by vm_compute)) as (Hh & _ & _ & Hp). by split.
  - destruct (joined_fields annotated one_row (Some "XLOC_000001") "WBGene00001234"
                (WState [] ∅)
                (snd (Py3.WormData annotated one_row (Some "XLOC_000001")
                        "WBGene00001234" (WState [] ∅)))) as (_ & H3 & _).
    destruct (H3 ltac:(by vm_compute)) as (Hh & _ & _ & Hp). by split.
Defined.



Lemma write_shortens_callers_list_witness :
  lists (snd (write any_path (OutputCSV "out.csv" 0)
                [ {[ "gene_id" := VStr "WBGene00001234" ]} ]
                (only_list 0 ["gene_id"; "db_id"; "up/down"]))) !! 0
  = Some ["gene_id"].
Proof.
  refine (proj1 (write_shortens_callers_list any_path "out.csv" 0
            [ {[ "gene_id" := VStr "WBGene00001234" ]} ]
            (only_list 0 ["gene_id"; "db_id"; "up/down"])
            ["gene_id"; "db_id"; "up/down"] _ _ _ _ _)).
  - reflexivity.
  - simpl. tauto.
  - simpl. tauto.
  - constructor; [|constructor]. intros v Hv. by vm_compute in Hv.
  - constructor; [|constructor]. intros (i & Hi & _). by vm_compute in Hi.
Defined.

(** C7 on python3/WormCSV.py: [write] has no trimming of the header there.
    With one record that has no [XLOC] identifier and a file that can be
    opened, python2/WormCSV.py writes the header without [db_id] and
    [up/down]; python3/WormCSV.py leaves the header as it is and writes all
    of it, when it writes at all. *)
Theorem write_py3_keeps_columns :
  let self := OutputCSV "out.csv" 0 in
  let ws := [ ({[ "gene_id" := VStr "WBGene00001234" ]} : gmap string value) ] in
  let w := only_list 0 ["gene_id"; "db_id"; "up/down"] in
  write any_path self ws w
    = (Ok tt,
       World {[ 0 := ["gene_id"] ]}
         {[ "out.csv" := [[VStr "gene_id"]; [VStr "WBGene00001234"]] ]})
  /\ Py3.write any_path true self ws w
    = (Ok tt,
       World {[ 0 := ["gene_id"; "db_id"; "up/down"] ]}
         {[ "out.csv" := [[VStr "gene_id"; VStr "db_id"; VStr "up/down"];
                          [VStr "WBGene00001234"; VStr ""; VStr ""]] ]})
  /\ Py3.write any_path false self ws w
    = (Raise TypeError,
       World {[ 0 := ["gene_id"; "db_id"; "up/down"] ]} {[ "out.csv" := [] ]}).
Proof. repeat split; by vm_compute. Qed.

(** C5 on python3/WormCSV.py: [protein_id] is joined before the
    [best_human_ortholog] step, which then runs over the characters of the
    joined string.  For the one protein [AB] it asks for [A] and for [B] and
    never for [AB]; with no protein at all it raises [TypeError].
    python2/WormCSV.py asks once, for [AB]. *)
Theorem best_human_ortholog_py3_by_character :
  (exists s', Py3.WormData (server [protein_row "AB"]) one_row (Some "XLOC_000001")
                "WBGene00001234" (WState [] ∅) = (Ok tt, s')
     /\ skipn 7 (trace s')
        = [url_of PROTEIN_BASE "A" "best_human_match";
           url_of PROTEIN_BASE "B" "best_human_match"])
  /\ fst (Py3.WormData (server []) one_row (Some "XLOC_000001")
            "WBGene00001234" (WState [] ∅)) = Raise TypeError
  /\ (exists s', WormData (server [protein_row "AB"]) one_row (Some "XLOC_000001")
                   "WBGene00001234" (WState [] ∅) = (Ok tt, s')
     /\ skipn 7 (trace s') = [url_of PROTEIN_BASE "AB" "best_human_match"]).
Proof.
  split; [|split].
  - eexists. split; [vm_compute; reflexivity | by vm_compute].
  - by vm_compute.
  - eexists. split; [vm_compute; reflexivity | by vm_compute].
Qed.

(** a step over two collected identifiers *)
Lemma best_human_ortholog_run_two :
  best_human_ortholog (server [])
    (WState [] {[ "protein_id" := VList [VStr "P"; VStr "Q"] ]})
  = (Ok tt,
     WState [url_of PROTEIN_BASE "P" "best_human_match";
             url_of PROTEIN_BASE "Q" "best_human_match"]
            (<["best_human_ortholog" := VList [VStr "human X"; VStr "human X"]]>
               {[ "protein_id" := VList [VStr "P"; VStr "Q"] ]})).
Proof.
  pose proof (best_human_ortholog_run (server []) ["P"; "Q"]
                [VStr "human X"; VStr "human X"]
                (WState [] {[ "protein_id" := VList [VStr "P"; VStr "Q"] ]})) as H.
  assert (H1 : data (WState [] {[ "protein_id" := VList [VStr "P"; VStr "Q"] ]})
               !! "protein_id" = Some (VList (map VStr ["P"; "Q"]))) by by vm_compute.
  assert (H2 : collect (description_of (server [])) (map VStr ["P"; "Q"])
               = Ok [VStr "human X"; VStr "human X"]) by by vm_compute.
  exact (H H1 H2).
Defined.

(** * Further properties *)

(** ** Instances of the python2 lemmas *)

Lemma WormData_without_prefix_witness :
  String.prefix "WBGene" "XLOC_000001" = false
  /\ WormData (server []) one_row (Some "XLOC_000001") "XLOC_000001" (WState [] ∅)
     = (Ok tt, WState [] {[ "gene_id" := VStr "XLOC_000001" ]}).
Proof.
  split; [reflexivity|].
  apply (WormData_without_prefix (server []) one_row (Some "XLOC_000001")
           "XLOC_000001" (WState [] ∅)).
  reflexivity.
Defined.

Lemma write_trims_header_witness :
  lists (snd (write any_path (OutputCSV "out.csv" 0)
                [ ({[ "db_id" := VStr "XLOC_000001" ]} : gmap string value) ]
                (only_list 0 ["gene_id"; "db_id"; "up/down"]))) !! 0
  = Some ["gene_id"; "db_id"; "up/down"].
Proof.
  refine (proj1 (proj2 (write_trims_header any_path (OutputCSV "out.csv" 0)
            [ ({[ "db_id" := VStr "XLOC_000001" ]} : gmap string value) ]
            (only_list 0 ["gene_id"; "db_id"; "up/down"])
            ["gene_id"; "db_id"; "up/down"] _ _ _ _)) _).
  - reflexivity.
  - simpl. tauto.
  - simpl. tauto.
  - constructor; [|constructor]. intros v Hv. exists "XLOC_000001".
    vm_compute in Hv. congruence.
  - constructor. exists "XLOC_000001". split; by vm_compute.
Defined.

(** ** WormData.fetch: what a returned value is *)

(** Whatever [fetch] returns, it has sent exactly one request, for a string
    identifier; and a value other than [None] is the [data] member of the
    mapping found under the field name in a response that is a mapping. *)
Theorem fetch_returns_data_member net baseUrl id datum s v s' :
  fetch net baseUrl id datum s = (Ok v, s') ->
  exists i, id = VStr i
    /\ s' = logged (url_of baseUrl i datum) s
    /\ (v = VNone
        \/ exists d d', net (url_of baseUrl i datum) = Body (VDict d)
             /\ assoc datum d = Some (VDict d')
             /\ assoc "data" d' = Some v).
Proof.
  intros Hrun. apply fetch_ok in Hrun as (i & -> & Hr & ->).
  exists i. split; [reflexivity | split; [reflexivity|]].
  revert Hr. unfold response, fetch, endpoint, str_add, bind, lift, requests_get,
    and_then, ret.
  fold (url_of baseUrl i datum). cbn [trace data fst].
  destruct (net (url_of baseUrl i datum)) as [| |j]; cbn [json fst].
  - discriminate.
  - intros [= <-]. by left.
  - destruct j as [| | |x|l|d]; cbn [contains getitem fst]; try discriminate.
    + destruct (substring_of datum x); cbn [fst]; [discriminate|].
      intros [= <-]. by left.
    + destruct (existsb (is_str datum) l); cbn [fst]; [discriminate|].
      intros [= <-]. by left.
    + destruct (assoc datum d) as [jd|] eqn:Ed; cbn [fst];
        [|intros [= <-]; by left].
      destruct jd as [| | |x|l|d']; cbn [contains getitem fst]; try discriminate.
      * destruct (substring_of "data" x); cbn [fst]; [discriminate|].
        intros [= <-]. by left.
      * destruct (existsb (is_str "data") l); cbn [fst]; [discriminate|].
        intros [= <-]. by left.
      * destruct (assoc "data" d') as [x|] eqn:Ed'; cbn [fst];
          [|intros [= <-]; by left].
        intros [= <-]. right. by exists d, d'.
Qed.

Lemma fetch_returns_data_member_witness :
  exists i, VStr "WBGene00001234" = VStr i
    /\ logged (url_of GENE_BASE "WBGene00001234" "sequence_name") (WState [] ∅)
       = logged (url_of GENE_BASE i "sequence_name") (WState [] ∅)
    /\ (VStr "abc-1" = VNone
        \/ exists d d', server [] (url_of GENE_BASE i "sequence_name") = Body (VDict d)
             /\ assoc "sequence_name" d = Some (VDict d')
             /\ assoc "data" d' = Some (VStr "abc-1")).
Proof.
  apply (fetch_returns_data_member (server []) GENE_BASE (VStr "WBGene00001234")
           "sequence_name" (WState [] ∅) (VStr "abc-1")).
  by vm_compute.
Defined.

(** ** CuffLinkDatabase: the keys of the store, and rows with repeated titles *)

Lemma last_row_is_Some k rows :
  is_Some (last_row k rows) <-> exists row, In row rows /\ head row = Some k.
Proof.
  induction rows as [|row rows IH]; simpl.
  - split; [intros [? [=]] | intros (? & [] & _)].
  - destruct (last_row k rows) as [r|].
    + split; [intros _ | by eauto].
      destruct (proj1 IH (ltac:(eauto))) as (row' & Hin & Hh). eauto.
    + destruct row as [|k' cells].
      * split; [intros [? [=]]|]. intros (row' & [<-|Hin] & Hh); [discriminate|].
        apply IH. eauto.
      * destruct (String.eqb_spec k' k) as [->|Hne].
        -- split; [intros _ | by eauto]. exists (k :: cells). by split; [left|].
        -- split; [intros [? [=]]|]. intros (row' & [<-|Hin] & Hh).
           ++ simpl in Hh. congruence.
           ++ apply IH. eauto.
Qed.

Lemma load_rows_ok headers rows :
  forall acc d, load_rows headers rows acc = Ok d ->
    Forall (fun r => r <> []) rows /\ size d <= size acc + length rows.
Proof.
  induction rows as [|row rows IH]; intros acc d; simpl.
  - intros [= <-]. split; [constructor | lia].
  - destruct row as [|key cells]; [discriminate|]. intros Hd.
    destruct (IH _ _ Hd) as [Hne Hsize]. split; [by constructor|].
    pose proof (map_size_insert key (dict_zip headers (key :: cells)) acc) as Hi.
    destruct (acc !! key); simpl in Hi; lia.
Qed.

(** A load that succeeds has read a header line and data rows that all have
    a first cell.  The keys of the store are exactly the first cells of the
    data rows, so there are at most as many as data rows; [get] answers
    [None] for every other key. *)
Theorem CuffLinkDatabase_keys rows d :
  CuffLinkDatabase rows = Ok d ->
  exists headers data_rows,
    rows = headers :: data_rows
    /\ Forall (fun r => r <> []) data_rows
    /\ (forall k, is_Some (get d k)
          <-> exists row, In row data_rows /\ head row = Some k)
    /\ size (getAll d) <= length data_rows.
Proof.
  destruct rows as [|headers data_rows]; [discriminate|]. simpl. intros Hd.
  destruct (load_rows_ok _ _ _ _ Hd) as [Hne Hsize].
  exists headers, data_rows. split; [reflexivity | split; [exact Hne | split]].
  - intros k. destruct (load_rows_lookup headers data_rows ∅ Hne) as (d' & Hd' & Hk).
    rewrite Hd in Hd'. injection Hd' as <-.
    unfold get. rewrite Hk, <- last_row_is_Some.
    destruct (last_row k data_rows); [by split; eauto|].
    rewrite lookup_empty. split; intros [? [=]].
  - unfold getAll. by rewrite map_size_empty in Hsize.
Qed.

Lemma CuffLinkDatabase_keys_witness :
  exists headers data_rows,
    [["id"; "log2(fold_change)"]; ["XLOC_001"; "2.5"]; ["XLOC_001"; "3.5"]]
    = headers :: data_rows
    /\ Forall (fun r => r <> []) data_rows
    /\ (forall k, is_Some (get {[ "XLOC_001" := {[ "id" := "XLOC_001";
                                                   "log2(fold_change)" := "3.5" ]} ]} k)
          <-> exists row, In row data_rows /\ head row = Some k)
    /\ size (getAll ({[ "XLOC_001" := {[ "id" := "XLOC_001";
                                         "log2(fold_change)" := "3.5" ]} ]}
                     : gmap string (gmap string string)))
       <= length data_rows.
Proof.
  apply (CuffLinkDatabase_keys
           [["id"; "log2(fold_change)"]; ["XLOC_001"; "2.5"]; ["XLOC_001"; "3.5"]]).
  by vm_compute.
Defined.

Lemma fold_insert_untouched (name : string) (headers : list string) :
  forall (row : list string) (acc : gmap string string),
  (forall j, headers !! j = Some name -> row !! j = None) ->
  fold_left (fun d kv => <[fst kv := snd kv]> d) (combine headers row) acc !! name
  = acc !! name.
Proof.
  induction headers as [|x headers IH]; intros row acc Hno; [reflexivity|].
  destruct row as [|c row]; [reflexivity|]. simpl.
  rewrite IH; [|intros j Hj; exact (Hno (S j) Hj)].
  apply lookup_insert_ne. intros ->. by specialize (Hno 0 eq_refl).
Qed.

Lemma fold_insert_last (name : string) (headers : list string) :
  forall (row : list string) (acc : gmap string string) (i : nat) (v : string),
  headers !! i = Some name -> row !! i = Some v ->
  (forall j, i < j -> headers !! j = Some name -> row !! j = None) ->
  fold_left (fun d kv => <[fst kv := snd kv]> d) (combine headers row) acc !! name
  = Some v.
Proof.
  induction headers as [|x headers IH]; intros row acc i v Hi Hv Hlast;
    [destruct i; discriminate|].
  destruct row as [|c row]; [destruct i; discriminate|]. simpl.
  destruct i as [|i]; simpl in Hi, Hv.
  - injection Hi as ->. injection Hv as ->.
    rewrite fold_insert_untouched; [apply lookup_insert_eq|].
    intros j Hj. apply (Hlast (S j)); [lia | exact Hj].
  - apply (IH row _ i v Hi Hv). intros j Hij Hj.
    apply (Hlast (S j)); [lia | exact Hj].
Qed.

Lemma fold_insert_entry (name : string) (headers : list string) :
  forall (row : list string) (acc : gmap string string) (v : string),
  fold_left (fun d kv => <[fst kv := snd kv]> d) (combine headers row) acc !! name
  = Some v ->
  (exists i, headers !! i = Some name /\ row !! i = Some v
     /\ forall j, i < j -> headers !! j = Some name -> row !! j = None)
  \/ (acc !! name = Some v
      /\ forall j, headers !! j = Some name -> row !! j = None).
Proof.
  induction headers as [|x headers IH]; intros row acc v.
  - intros Hf. right. split; [exact Hf|]. intros j Hj. by destruct j.
  - destruct row as [|c row].
    + intros Hf. right. split; [exact Hf|]. intros j _. by destruct j.
    + simpl. intros Hf.
      destruct (IH row _ v Hf) as [(i & Hi & Hv & Hlast)|[Hacc Hno]].
      * left. exists (S i). split; [exact Hi | split; [exact Hv|]].
        intros [|j] Hij Hj; [lia|]. apply (Hlast j); [lia | exact Hj].
      * destruct (decide (x = name)) as [->|Hne].
        -- rewrite lookup_insert_eq in Hacc. injection Hacc as ->.
           left. exists 0. split; [reflexivity | split; [reflexivity|]].
           intros [|j] Hj Hhj; [lia|]. by apply Hno.
        -- right. rewrite lookup_insert_ne in Hacc by done. split; [exact Hacc|].
           intros [|j] Hj; [simpl in Hj; congruence | by apply Hno].
Qed.

(** A row mapping has an entry for a title exactly when some cell of the
    row stands under that title; its value is the cell under the last such
    occurrence of the title.  So a repeated title keeps its last cell, cells
    beyond the header are dropped, and titles beyond the row get no entry. *)
Theorem dict_zip_entry (headers row : list string) (name v : string) :
  dict_zip headers row !! name = Some v
  <-> exists i, headers !! i = Some name /\ row !! i = Some v
        /\ forall j, i < j -> headers !! j = Some name -> row !! j = None.
Proof.
  unfold dict_zip. split.
  - intros Hf. destruct (fold_insert_entry name headers row ∅ v Hf) as [H|[Hacc _]];
      [exact H | by rewrite lookup_empty in Hacc].
  - intros (i & Hi & Hv & Hlast). by apply (fold_insert_last name headers row ∅ i v).
Qed.

Lemma dict_zip_entry_witness :
  dict_zip ["id"; "value"; "value"] ["XLOC_001"; "2.5"; "3.5"; "4.5"] !! "value"
  = Some "3.5".
Proof.
  apply (dict_zip_entry ["id"; "value"; "value"] ["XLOC_001"; "2.5"; "3.5"; "4.5"]
           "value" "3.5").
  exists 2. split; [reflexivity | split; [reflexivity|]].
  intros [|[|[|j]]] Hj Hh; try lia. by destruct j.
Defined.

(** ** The keys of a record *)

Section RecordKeys.

Variable net : string -> reply.
Variable database : gmap string (gmap string string).
Variable geneID : string.

(** the record has no key outside the field names, and its [gene_id] is the
    identifier the constructor was given *)
Let shape (d : gmap string value) : Prop :=
  (forall k, is_Some (d !! k) -> In k field_names)
  /\ d !! "gene_id" = Some (VStr geneID).

Lemma shape_insert k v d :
  In k field_names -> k <> "gene_id" -> shape d -> shape (<[k := v]> d).
Proof.
  intros Hin Hne [Hdom Hid]. split.
  - intros k0. destruct (decide (k = k0)) as [<-|Hk]; [by intros _|].
    rewrite lookup_insert_ne by done. apply Hdom.
  - by rewrite lookup_insert_ne.
Qed.

Ltac keeps_shape :=
  repeat first
    [ apply keeps_fetch
    | apply keeps_get_data
    | apply keeps_set_data; intros ?; apply shape_insert; [pick | discriminate]
    | apply keeps_append_data; intros ? ?; apply shape_insert; [pick | discriminate]
    | apply keeps_joinIfExtant; intros ? ?; apply shape_insert; [pick | discriminate]
    | apply keeps_lift
    | apply keeps_ret
    | apply keeps_raise
    | apply keeps_and_then
    | apply keeps_when
    | apply keeps_for_each; intros ?
    | apply keeps_if
    | apply keeps_bind; [|intros ?] ].

Lemma keeps_shape_up_down dbId : keeps shape (up_down database dbId).
Proof.
  unfold up_down. destruct dbId as [i|]; [|apply keeps_ret].
  apply keeps_when. destruct (get database i) as [row|]; [|apply keeps_raise].
  destruct (row !! "log2(fold_change)"); keeps_shape.
Qed.

Lemma keeps_shape_up_down_py3 xlocID : keeps shape (Py3.up_down database xlocID).
Proof.
  unfold Py3.up_down. destruct xlocID as [i|]; [|apply keeps_raise].
  destruct (get database i) as [row|]; [|apply keeps_raise].
  destruct (row !! "log2(fold_change)"); keeps_shape.
Qed.

Lemma keeps_shape_orthologs datum :
  In datum field_names -> datum <> "gene_id" ->
  keeps shape (orthologs net geneID datum).
Proof.
  intros Hin Hne. unfold orthologs.
  repeat first
    [ apply keeps_fetch
    | apply keeps_set_data; intros ?; by apply shape_insert
    | apply keeps_append_data; intros ? ?; by apply shape_insert
    | apply keeps_joinIfExtant; intros ? ?; by apply shape_insert
    | apply keeps_lift
    | apply keeps_when
    | apply keeps_for_each; intros ?
    | apply keeps_bind; [|intros ?] ].
Qed.

Lemma keeps_shape_populate dbId : keeps shape (populate net database dbId geneID).
Proof.
  unfold populate. apply keeps_when.
  apply keeps_bind; [apply keeps_shape_up_down | intros _].
  unfold protein_ids, gene_class, best_human_ortholog, best_human_match, nonempty_with.
  repeat first
    [ apply keeps_shape_orthologs; [pick | discriminate]
    | progress keeps_shape ].
Qed.

Lemma keeps_shape_populate_py3 xlocID :
  keeps shape (Py3.populate net database xlocID geneID).
Proof.
  unfold Py3.populate.
  apply keeps_bind; [apply keeps_shape_up_down_py3 | intros _].
  unfold Py3.protein_ids, Py3.best_human_ortholog, Py3.join_or_none,
    best_human_match, nonempty_with.
  repeat first
    [ apply keeps_shape_orthologs; [pick | discriminate]
    | progress keeps_shape ].
Qed.

(** However the constructor ends, in either rendition: the record still has
    the [gene_id] it was given, which [get] hands back, and it has no key
    outside the ten field names; in particular it never has a [db_id], for
    which [get] answers [None]. *)
Theorem record_keys dbId s r s' :
  WormData net database dbId geneID s = (r, s')
  \/ Py3.WormData net database dbId geneID s = (r, s') ->
  (forall k, is_Some (describe s' !! k) -> In k field_names)
  /\ WormData_get s' "gene_id" = VStr geneID
  /\ describe s' !! "db_id" = None
  /\ WormData_get s' "db_id" = VNone.
Proof.
  assert (H0 : shape (data (WState (trace s) (<["gene_id" := VStr geneID]> ∅)))).
  { cbn [data]. split; [|apply lookup_insert_eq].
    intros k. destruct (decide ("gene_id" = k)) as [<-|Hne]; [intros _; by left|].
    rewrite lookup_insert_ne, lookup_empty by done. by intros [? [=]]. }
  intros Hrun.
  assert (Hshape : shape (data s')).
  { destruct Hrun as [Hrun|Hrun]; unfold WormData, Py3.WormData, bind in Hrun;
      cbn [set_data] in Hrun.
    - exact (keeps_shape_populate dbId _ _ _ H0 Hrun).
    - exact (keeps_shape_populate_py3 dbId _ _ _ H0 Hrun). }
  destruct Hshape as [Hdom Hid].
  assert (Hdb : data s' !! "db_id" = None).
  { destruct (data s' !! "db_id") as [v|] eqn:E; [|reflexivity].
    exfalso. assert (Hin : In "db_id" field_names) by (apply Hdom; by rewrite E).
    simpl in Hin. intuition discriminate. }
  unfold describe, WormData_get. rewrite Hid, Hdb. by repeat split.
Qed.

End RecordKeys.

Lemma record_keys_witness :
  WormData_get (snd (WormData no_description ∅ None "WBGene00001234" (WState [] ∅)))
    "gene_id" = VStr "WBGene00001234"
  /\ describe (snd (WormData no_description ∅ None "WBGene00001234" (WState [] ∅)))
       !! "db_id" = None.
Proof.
  destruct (record_keys no_description ∅ "WBGene00001234" None (WState [] ∅)
              (fst (WormData no_description ∅ None "WBGene00001234" (WState [] ∅)))
              (snd (WormData no_description ∅ None "WBGene00001234" (WState [] ∅))))
    as (_ & Hid & Hdb & _).
  - left. apply surjective_pairing.
  - by split.
Defined.

(** ** OutputCSV.write: the lines written *)



(** ** OutputCSV.write: the scan for [XLOC] identifiers *)

Lemma exclusivelyWBIds_false ws : exclusivelyWBIds false ws = Ok false.
Proof. induction ws as [|w ws IH]; [reflexivity | exact IH]. Qed.

Lemma exclusivelyWBIds_app pre rest :
  Forall db_id_is_str pre -> Forall (fun w => ~ uses_XLOC w) pre ->
  exclusivelyWBIds true (pre ++ rest) = exclusivelyWBIds true rest.
Proof.
  induction 1 as [|w pre Hw Hpre IH]; intros Hno; [reflexivity|].
  inversion Hno as [|? ? Hnw Hnpre]; subst. simpl.
  destruct (has_XLOC_id_spec w Hw) as (b & -> & Hb).
  destruct b; [exfalso; apply Hnw; by apply Hb | by apply IH].
Qed.

(** The scan looks at the records in order and stops looking at the first
    one with an [XLOC] identifier: whatever comes after it, the header is
    kept.  A record whose [db_id] is not a string, met before any such
    record, ends [write] with [AttributeError], nothing changed and no file
    opened. *)
Theorem scan_stops_at_first_XLOC (pre post : list (gmap string value))
    (w : gmap string value) :
  Forall db_id_is_str pre -> Forall (fun w => ~ uses_XLOC w) pre ->
  (uses_XLOC w ->
     exclusivelyWBIds true (pre ++ w :: post) = Ok false
     /\ forall can_open self wd hs, lists wd !! headers self = Some hs ->
          lists (snd (write can_open self (pre ++ w :: post) wd)) = lists wd)
  /\ (forall v, w !! "db_id" = Some v -> isinstance_str v = false ->
        forall can_open self wd,
          write can_open self (pre ++ w :: post) wd = (Raise AttributeError, wd)).
Proof.
  intros Hstr Hno. split.
  - intros (i & Hi & Hp).
    assert (Hw : has_XLOC_id w = Ok true).
    { unfold has_XLOC_id. destruct (Nat.eqb_spec (size w) 0) as [Hz|_].
      - apply map_size_empty_iff in Hz. subst w. by rewrite lookup_empty in Hi.
      - rewrite Hi. cbn [startswith]. by rewrite Hp. }
    assert (Hscan : exclusivelyWBIds true (pre ++ w :: post) = Ok false).
    { rewrite (exclusivelyWBIds_app pre _ Hstr Hno). simpl. rewrite Hw.
      apply exclusivelyWBIds_false. }
    split; [exact Hscan|]. intros can_open self wd hs Hh.
    unfold write, bind at 1, lift. rewrite Hscan. cbn [when].
    rewrite (bind_run (ret tt) _ wd tt wd eq_refl).
    rewrite (write_file_run can_open self _ wd hs Hh).
    by destruct (can_open (path self)).
  - intros v Hv Hnot can_open self wd.
    assert (Hw : has_XLOC_id w = Raise AttributeError).
    { unfold has_XLOC_id. destruct (Nat.eqb_spec (size w) 0) as [Hz|_].
      - apply map_size_empty_iff in Hz. subst w. by rewrite lookup_empty in Hv.
      - rewrite Hv. by destruct v. }
    unfold write, bind at 1, lift.
    rewrite (exclusivelyWBIds_app pre _ Hstr Hno). simpl. by rewrite Hw.
Qed.

Lemma scan_stops_at_first_XLOC_witness :
  exclusivelyWBIds true
    ([ ({[ "gene_id" := VStr "WBGene00001234" ]} : gmap string value) ]
     ++ {[ "db_id" := VStr "XLOC_000001" ]} :: [ {[ "db_id" := VNone ]} ])
  = Ok false.
Proof.
  refine (proj1 (proj1 (scan_stops_at_first_XLOC
            [ ({[ "gene_id" := VStr "WBGene00001234" ]} : gmap string value) ]
            [ {[ "db_id" := VNone ]} ] {[ "db_id" := VStr "XLOC_000001" ]} _ _) _)).
  - constructor; [|constructor]. intros v Hv. by vm_compute in Hv.
  - constructor; [|constructor]. intros (i & Hi & _). by vm_compute in Hi.
  - exists "XLOC_000001". split; by vm_compute.
Defined.

(** ** Records straight from the constructor, handed to [write] *)





(** ** The requests of a run *)

Lemma sends_ret {A} (a : A) : sends (ret a) [].
Proof. intros s a' s' [= <- <-]. by rewrite app_nil_r. Qed.

Lemma sends_raise {A} e : sends (raise e : M wstate A) [].
Proof. intros s a s' [=]. Qed.

Lemma sends_lift {A} (x : res A) : sends (lift x) [].
Proof. intros s a s' [= _ <-]. by rewrite app_nil_r. Qed.

Lemma sends_bind {A B} (m : M wstate A) (f : A -> M wstate B) us vs :
  sends m us -> (forall a, sends (f a) vs) -> sends (bind m f) (us ++ vs).
Proof.
  intros Hm Hf s b s'' Hrun. apply bind_ok in Hrun as (a & s' & H1 & H2).
  rewrite (Hf a s' b s'' H2), (Hm s a s' H1). by rewrite app_assoc.
Qed.

Lemma sends_then {A B} (m : M wstate A) (f : A -> M wstate B) vs :
  sends m [] -> (forall a, sends (f a) vs) -> sends (bind m f) vs.
Proof. intros Hm Hf. by apply (sends_bind m f [] vs). Qed.

Lemma sends_when (c : bool) (body : M wstate unit) :
  sends body [] -> sends (when c body) [].
Proof. destruct c; simpl; [trivial | intros _; apply sends_ret]. Qed.

Lemma sends_if {A} (c : bool) (a b : M wstate A) us :
  sends a us -> sends b us -> sends (if c then a else b) us.
Proof. by destruct c. Qed.

Lemma sends_and_then (a b : M wstate bool) :
  sends a [] -> sends b [] -> sends (and_then a b) [].
Proof.
  intros Ha Hb. apply sends_then; [exact Ha|].
  intros []; [exact Hb | apply sends_ret].
Qed.

Lemma sends_for_each {A} (l : list A) (body : A -> M wstate unit) :
  (forall x, sends (body x) []) -> sends (for_each l body) [].
Proof.
  intros Hbody. induction l as [|x l IH]; simpl.
  - apply sends_ret.
  - apply sends_then; [apply Hbody | intros _; exact IH].
Qed.

Lemma sends_get_data k : sends (get_data k) [].
Proof.
  intros s a s'. unfold get_data.
  destruct (data s !! k); intros [= _ <-]. by rewrite app_nil_r.
Qed.

Lemma sends_set_data k v : sends (set_data k v) [].
Proof. intros s a s' [= _ <-]. cbn [trace]. by rewrite app_nil_r. Qed.

Lemma sends_fetch net baseUrl id datum :
  sends (fetch net baseUrl (VStr id) datum) [url_of baseUrl id datum].
Proof. intros s a s'. rewrite fetch_run. by intros [= _ <-]. Qed.

Ltac sends_step :=
  first
    [ apply sends_get_data
    | apply sends_set_data
    | apply sends_lift
    | apply sends_ret
    | apply sends_raise
    | apply sends_and_then
    | apply sends_when
    | apply sends_for_each; intros ?
    | apply sends_if
    | apply sends_then; [|intros ?] ].

Ltac sends_auto := repeat sends_step.

Section SendsPopulate.

Variable net : string -> reply.
Variable database : gmap string (gmap string string).

Lemma sends_append_data k v : sends (append_data k v) [].
Proof. unfold append_data. sends_auto. destruct a; sends_auto. Qed.

Lemma sends_joinIfExtant k : sends (joinIfExtant k) [].
Proof. unfold joinIfExtant. sends_auto. Qed.

Lemma sends_up_down dbId : sends (up_down database dbId) [].
Proof.
  unfold up_down. destruct dbId as [i|]; [|apply sends_ret].
  apply sends_when. destruct (get database i) as [row|]; [|apply sends_raise].
  destruct (row !! "log2(fold_change)"); sends_auto.
Qed.

Lemma sends_protein_ids geneID :
  sends (protein_ids net geneID) [url_of GENE_BASE geneID "gene_models"].
Proof.
  unfold protein_ids, nonempty_with.
  apply (sends_bind _ _ [_] []); [apply sends_fetch | intros gm].
  repeat first [apply sends_append_data | sends_step].
Qed.

Lemma sends_gene_class geneID :
  sends (gene_class net geneID) [url_of GENE_BASE geneID "gene_class"].
Proof.
  unfold gene_class, nonempty_with.
  apply (sends_bind _ _ [_] []); [apply sends_fetch | intros gc].
  sends_auto.
Qed.

Lemma sends_orthologs geneID datum :
  sends (orthologs net geneID datum) [url_of GENE_BASE geneID datum].
Proof.
  unfold orthologs.
  apply (sends_bind _ _ [_] []); [apply sends_fetch | intros found].
  repeat first [apply sends_append_data | apply sends_joinIfExtant | sends_step].
Qed.

(** a [best_human_match] lookup that returns was made for a string *)
Lemma best_human_match_ok proteinID s s' :
  best_human_match net proteinID s = (Ok tt, s') ->
  exists p, proteinID = VStr p /\ trace s' = trace s ++ [protein_request p].
Proof.
  unfold best_human_match. intros Hrun.
  apply bind_ok in Hrun as (m & s1 & Hf & Hrest).
  apply fetch_ok in Hf as (p & -> & _ & ->). exists p. split; [reflexivity|].
  assert (Hq : sends (c <- nonempty_with "description" m ;;
                      when c (d <- lift (getitem m "description") ;;
                              append_data "best_human_ortholog" d)) []).
  { unfold nonempty_with. repeat first [apply sends_append_data | sends_step]. }
  rewrite (Hq _ _ _ Hrest). cbn [logged trace]. by rewrite app_nil_r.
Qed.

Lemma best_human_loop_ok ids :
  forall s s', for_each ids (best_human_match net) s = (Ok tt, s') ->
  exists ps, ids = map VStr ps /\ trace s' = trace s ++ map protein_request ps.
Proof.
  induction ids as [|x ids IH]; intros s s'; simpl.
  - intros [= <-]. exists []. by rewrite app_nil_r.
  - intros Hrun. apply bind_ok in Hrun as ([] & s1 & H1 & H2).
    apply best_human_match_ok in H1 as (p & -> & T1).
    apply IH in H2 as (ps & -> & T2).
    exists (p :: ps). split; [reflexivity|]. rewrite T2, T1. by rewrite <- app_assoc.
Qed.

Lemma wp_best_human_ortholog_trace ids s :
  data s !! "protein_id" = Some (VList ids) ->
  wp (best_human_ortholog net)
     (fun _ s' => exists ps, ids = map VStr ps
                  /\ trace s' = trace s ++ map protein_request ps) s.
Proof.
  intros Hids. unfold best_human_ortholog.
  apply wp_bind, wp_set_data.
  set (s1 := WState _ _).
  assert (Hids1 : data s1 !! "protein_id" = Some (VList ids))
    by (subst s1; cbn [data]; by rewrite lookup_insert_ne).
  assert (T1 : trace s1 = trace s) by reflexivity.
  clearbody s1. rewrite <- T1. clear T1.
  apply wp_bind, wp_get_data. intros p Hp. rewrite Hids1 in Hp. injection Hp as <-.
  apply wp_bind, wp_get_data. intros p Hp. rewrite Hids1 in Hp. injection Hp as <-.
  cbn [isinstance_str negb]. rewrite andb_true_r.
  destruct ids as [|x ids]; cbn [truthy].
  - apply wp_bind, wp_get_data. intros p Hp. rewrite Hids1 in Hp. injection Hp as <-.
    cbn [truthy when]. apply wp_ret. exists []. by rewrite app_nil_r.
  - apply wp_bind, wp_get_data. intros p Hp. rewrite Hids1 in Hp. injection Hp as <-.
    apply wp_bind, wp_lift. intros items [= <-].
    intros [] s' Hrun. by apply best_human_loop_ok.
Qed.

Lemma wp_sends {A} (m : M wstate A) us s :
  sends m us -> wp m (fun _ s' => trace s' = trace s ++ us) s.
Proof. intros H a s' Hrun. exact (H s a s' Hrun). Qed.

Lemma populate_trace dbId geneID s :
  String.prefix "WBGene" geneID = true ->
  wp (populate net database dbId geneID)
     (fun _ s' => exists geneModels ps,
        response net GENE_BASE (VStr geneID) "gene_models" = Ok geneModels
        /\ proteins geneModels = Ok (map VStr ps)
        /\ trace s' = trace s ++ gene_requests geneID ++ map protein_request ps) s.
Proof.
  intros Hp. unfold populate.
  rewrite Hp, (prefix_nonempty "WBGene" geneID) by done. cbn [andb when].
  apply wp_bind. eapply wp_mono; [apply wp_sends, sends_up_down|].
  cbv beta. intros [] s0 T0. rewrite app_nil_r in T0.
  apply wp_bind. eapply wp_mono; [apply wp_sends, sends_fetch|].
  cbv beta. intros sq s1 T1.
  apply wp_bind. eapply wp_mono; [apply wp_sends, sends_set_data|].
  cbv beta. intros [] s2 T2.
  apply wp_bind. eapply wp_mono; [apply wp_sends, sends_fetch|].
  cbv beta. intros d s3 T3.
  apply wp_bind. eapply wp_mono; [apply wp_sends, sends_lift|].
  cbv beta. intros text s4 T4.
  apply wp_bind. eapply wp_mono; [apply wp_sends, sends_set_data|].
  cbv beta. intros [] s5 T5.
  apply wp_bind. eapply wp_mono;
    [apply wp_and; [apply wp_protein_ids | apply wp_sends, sends_protein_ids]|].
  cbv beta. intros [] s6 ((gm & ids & Hgm & Hids & H6) & T6).
  pose (P := fun d : gmap string value => d !! "protein_id" = Some (VList ids)).
  apply wp_bind. eapply wp_mono;
    [apply wp_and; [apply (keeps_wp P); [keeps_populate | exact H6]
                   | apply wp_sends, sends_gene_class]|].
  cbv beta. intros [] s7 (H7 & T7).
  apply wp_bind. eapply wp_mono;
    [apply wp_and; [apply (keeps_wp P); [keeps_populate | exact H7]
                   | apply wp_sends, sends_orthologs]|].
  cbv beta. intros [] s8 (H8 & T8).
  apply wp_bind. eapply wp_mono;
    [apply wp_and; [apply (keeps_wp P); [keeps_populate | exact H8]
                   | apply wp_sends, sends_orthologs]|].
  cbv beta. intros [] s9 (H9 & T9).
  apply wp_bind. eapply wp_mono;
    [apply wp_and; [apply (keeps_wp P); [keeps_populate | exact H9]
                   | apply wp_sends, sends_orthologs]|].
  cbv beta. intros [] s10 (H10 & T10).
  apply wp_bind. eapply wp_mono; [by apply (wp_best_human_ortholog_trace ids)|].
  cbv beta. intros [] s11 (ps & -> & T11).
  apply wp_bind. eapply wp_mono; [apply wp_sends, sends_joinIfExtant|].
  cbv beta. intros [] s12 T12.
  eapply wp_mono; [apply wp_sends, sends_joinIfExtant|].
  cbv beta. intros [] s13 T13.
  exists gm, ps. split; [exact Hgm | split; [exact Hids|]].
  rewrite T13, T12, T11, T10, T9, T8, T7, T6, T5, T4, T3, T2, T1, T0.
  rewrite !app_nil_r. unfold gene_requests. cbn [map]. by rewrite <- !app_assoc.
Qed.

End SendsPopulate.

(** python2/WormCSV.py: a constructor that returns for a gene with the
    prefix has sent the seven gene lookups, in the order of [populate], and
    after them one [best_human_match] lookup for each protein identifier of
    the [gene_models] answer, in the order of that answer; it has sent
    nothing else. *)
Theorem WormData_requests net database dbId geneID s s' :
  String.prefix "WBGene" geneID = true ->
  WormData net database dbId geneID s = (Ok tt, s') ->
  exists geneModels ps,
    response net GENE_BASE (VStr geneID) "gene_models" = Ok geneModels
    /\ proteins geneModels = Ok (map VStr ps)
    /\ trace s' = trace s ++ gene_requests geneID ++ map protein_request ps.
Proof.
  intros Hp Hrun. unfold WormData in Hrun.
  apply bind_ok in Hrun as ([] & s1 & [= <-] & Hrun).
  exact (populate_trace net database dbId geneID _ Hp tt s' Hrun).
Qed.

Lemma WormData_requests_witness :
  exists geneModels ps,
    response (server [protein_row "P"; protein_row "Q"]) GENE_BASE
      (VStr "WBGene00001234") "gene_models" = Ok geneModels
    /\ proteins geneModels = Ok (map VStr ps)
    /\ trace (snd (WormData (server [protein_row "P"; protein_row "Q"]) one_row
                     (Some "XLOC_000001") "WBGene00001234" (WState [] ∅)))
       = [] ++ gene_requests "WBGene00001234" ++ map protein_request ps.
Proof.
  apply (WormData_requests (server [protein_row "P"; protein_row "Q"]) one_row
           (Some "XLOC_000001") "WBGene00001234" (WState [] ∅));
    [reflexivity | by vm_compute].
Defined.

(** ** The fields stored as they come *)

Lemma other_field_opt (key k : string) (o : option value) (v : value)
    (d : gmap string value) :
  k <> key -> d !! key = o -> <[k := v]> d !! key = o.
Proof. intros Hne Hd. by rewrite lookup_insert_ne. Qed.

Ltac untouched :=
  repeat first
    [ apply keeps_fetch
    | apply keeps_get_data
    | apply keeps_set_data; intros ?; apply other_field_opt; discriminate
    | apply keeps_append_data; intros ? ?; apply other_field_opt; discriminate
    | apply keeps_joinIfExtant; intros ? ?; apply other_field_opt; discriminate
    | apply keeps_lift
    | apply keeps_ret
    | apply keeps_raise
    | apply keeps_and_then
    | apply keeps_when
    | apply keeps_for_each; intros ?
    | apply keeps_if
    | apply keeps_bind; [|intros ?] ].

Section Verbatim.

Variable net : string -> reply.
Variable database : gmap string (gmap string string).
Variable geneID : string.

Lemma keeps_verbatim_up_down key o dbId :
  In key verbatim -> keeps (fun d => d !! key = o) (up_down database dbId).
Proof.
  intros Hin. unfold up_down. destruct dbId as [i|]; [|apply keeps_ret].
  apply keeps_when. destruct (get database i) as [row|]; [|apply keeps_raise].
  destruct (row !! "log2(fold_change)"); [|apply keeps_raise].
  simpl in Hin. destruct Hin as [<-|[<-|[<-|[]]]]; untouched.
Qed.

Lemma keeps_verbatim_up_down_py3 key o xlocID :
  In key verbatim -> keeps (fun d => d !! key = o) (Py3.up_down database xlocID).
Proof.
  intros Hin. unfold Py3.up_down. destruct xlocID as [i|]; [|apply keeps_raise].
  destruct (get database i) as [row|]; [|apply keeps_raise].
  destruct (row !! "log2(fold_change)"); [|apply keeps_raise].
  simpl in Hin. destruct Hin as [<-|[<-|[<-|[]]]]; untouched.
Qed.

Lemma keeps_verbatim_protein_ids key o :
  In key verbatim -> keeps (fun d => d !! key = o) (protein_ids net geneID).
Proof.
  intros Hin. unfold protein_ids, nonempty_with.
  simpl in Hin. destruct Hin as [<-|[<-|[<-|[]]]]; untouched.
Qed.

Lemma keeps_verbatim_protein_ids_py3 key o :
  In key verbatim -> keeps (fun d => d !! key = o) (Py3.protein_ids net geneID).
Proof.
  intros Hin. unfold Py3.protein_ids, Py3.join_or_none, nonempty_with.
  simpl in Hin. destruct Hin as [<-|[<-|[<-|[]]]]; untouched.
Qed.

Lemma keeps_verbatim_tail key o :
  In key verbatim ->
  keeps (fun d => d !! key = o)
    (orthologs net geneID "human_orthologs" ;;;
     orthologs net geneID "nematode_orthologs" ;;;
     orthologs net geneID "other_orthologs" ;;;
     best_human_ortholog net ;;;
     joinIfExtant "protein_id" ;;;
     joinIfExtant "best_human_ortholog").
Proof.
  intros Hin. unfold orthologs, best_human_ortholog, best_human_match, nonempty_with.
  simpl in Hin. destruct Hin as [<-|[<-|[<-|[]]]]; untouched.
Qed.

Lemma keeps_verbatim_tail_py3 key o :
  In key verbatim ->
  keeps (fun d => d !! key = o)
    (Py3.orthologs net geneID "human_orthologs" ;;;
     Py3.orthologs net geneID "nematode_orthologs" ;;;
     Py3.orthologs net geneID "other_orthologs" ;;;
     Py3.best_human_ortholog net).
Proof.
  intros Hin.
  unfold Py3.orthologs, Py3.best_human_ortholog, Py3.join_or_none,
    best_human_match, nonempty_with.
  simpl in Hin. destruct Hin as [<-|[<-|[<-|[]]]]; untouched.
Qed.

(** the [gene_class] lookup stores the label of the tag of the answer, and
    nothing when the answer has no tag with a label *)
Lemma wp_gene_class s :
  data s !! "gene_class" = None ->
  wp (gene_class net geneID)
     (fun _ s' => exists geneClass o,
        response net GENE_BASE (VStr geneID) "gene_class" = Ok geneClass
        /\ class_label geneClass = Ok o
        /\ data s' !! "gene_class" = o) s.
Proof.
  intros Hnone. unfold gene_class, nonempty_with.
  apply wp_bind, wp_fetch. intros i gc [= <-] Hgc.
  apply (wp_mono _ (fun _ s' => exists o, class_label gc = Ok o
                                /\ data s' !! "gene_class" = o));
    [|intros [] s' (o & Ho & Hc); by exists gc, o].
  unfold class_label.
  apply wp_bind, wp_and_then, wp_and_then, wp_ret.
  destruct (truthy gc).
  - apply wp_lift. intros c Hc. rewrite Hc. destruct c.
    + apply wp_bind, wp_lift. intros t Ht. rewrite Ht.
      apply wp_lift. intros c Hc'. rewrite Hc'. destruct c; cbn [when].
      * apply wp_bind, wp_lift. intros t' [= <-].
        apply wp_bind, wp_lift. intros l Hl. rewrite Hl.
        apply wp_set_data. exists (Some l).
        split; [reflexivity | apply lookup_insert_eq].
      * apply wp_ret. by exists None.
    + cbn [when]. apply wp_ret. by exists None.
  - cbn [when]. apply wp_ret. by exists None.
Qed.

Lemma populate_verbatim dbId s :
  String.prefix "WBGene" geneID = true ->
  data s !! "gene_class" = None ->
  wp (populate net database dbId geneID)
     (fun _ s' => sequence_field net geneID (data s')
                  /\ description_field net geneID (data s')
                  /\ exists geneClass o,
                       response net GENE_BASE (VStr geneID) "gene_class" = Ok geneClass
                       /\ class_label geneClass = Ok o
                       /\ data s' !! "gene_class" = o) s.
Proof.
  intros Hp H0. unfold populate.
  rewrite Hp, (prefix_nonempty "WBGene" geneID) by done. cbn [andb when].
  pose (C := fun (o : option value) (d : gmap string value) => d !! "gene_class" = o).
  pose (S := fun (o : option value) (d : gmap string value) => d !! "sequence_name" = o).
  pose (D := fun (o : option value) (d : gmap string value) => d !! "description" = o).
  apply wp_bind. eapply wp_mono;
    [apply (keeps_wp (C None)); [apply keeps_verbatim_up_down; pick | exact H0]|].
  cbv beta. intros [] s0 C0.
  apply wp_bind, wp_fetch. intros i sq [= <-] Hsq.
  apply wp_bind, wp_set_data.
  apply wp_bind, wp_fetch. intros i d [= <-] Hd.
  apply wp_bind, wp_lift. intros text Htext.
  apply wp_bind, wp_set_data.
  set (s1 := WState _ _).
  assert (S1 : S (Some sq) (data s1)).
  { subst s1 S. cbn [data logged trace]. rewrite lookup_insert_ne by discriminate.
    apply lookup_insert_eq. }
  assert (D1 : D (Some text) (data s1)) by apply lookup_insert_eq.
  assert (C1 : C None (data s1)).
  { subst s1 C. cbn [data logged trace]. by rewrite !lookup_insert_ne. }
  clearbody s1.
  apply wp_bind. eapply wp_mono.
  { apply wp_and; [|apply wp_and].
    - apply (keeps_wp (S (Some sq))); [apply keeps_verbatim_protein_ids; pick | exact S1].
    - apply (keeps_wp (D (Some text))); [apply keeps_verbatim_protein_ids; pick | exact D1].
    - apply (keeps_wp (C None)); [apply keeps_verbatim_protein_ids; pick | exact C1]. }
  cbv beta. intros [] s2 (S2 & D2 & C2).
  apply wp_bind. eapply wp_mono.
  { apply wp_and; [|apply wp_and].
    - apply (keeps_wp (S (Some sq))); [|exact S2].
      unfold gene_class, nonempty_with, S. untouched.
    - apply (keeps_wp (D (Some text))); [|exact D2].
      unfold gene_class, nonempty_with, D. untouched.
    - by apply wp_gene_class. }
  cbv beta. intros [] s3 (S3 & D3 & gc & o & Hgc & Ho & C3).
  eapply wp_mono.
  { apply wp_and; [|apply wp_and].
    - apply (keeps_wp (S (Some sq))); [apply keeps_verbatim_tail; pick | exact S3].
    - apply (keeps_wp (D (Some text))); [apply keeps_verbatim_tail; pick | exact D3].
    - apply (keeps_wp (C o)); [apply keeps_verbatim_tail; pick | exact C3]. }
  cbv beta. intros [] s4 (S4 & D4 & C4).
  split; [by exists sq | split; [by exists d, text | by exists gc, o]].
Qed.

Lemma populate_verbatim_py3 xlocID s :
  wp (Py3.populate net database xlocID geneID)
     (fun _ s' => sequence_field net geneID (data s')
                  /\ description_field net geneID (data s')
                  /\ exists geneClass,
                       response net GENE_BASE (VStr geneID) "gene_class" = Ok geneClass
                       /\ data s' !! "gene_class" = Some geneClass) s.
Proof.
  unfold Py3.populate.
  pose (C := fun (o : option value) (d : gmap string value) => d !! "gene_class" = o).
  pose (S := fun (o : option value) (d : gmap string value) => d !! "sequence_name" = o).
  pose (D := fun (o : option value) (d : gmap string value) => d !! "description" = o).
  skip.
  apply wp_bind, wp_fetch. intros i sq [= <-] Hsq.
  apply wp_bind, wp_set_data.
  apply wp_bind, wp_fetch. intros i d [= <-] Hd.
  apply wp_bind, wp_lift. intros text Htext.
  apply wp_bind, wp_set_data.
  set (s1 := WState _ _).
  assert (S1 : S (Some sq) (data s1)).
  { subst s1 S. cbn [data logged trace]. rewrite lookup_insert_ne by discriminate.
    apply lookup_insert_eq. }
  assert (D1 : D (Some text) (data s1)) by apply lookup_insert_eq.
  clearbody s1.
  apply wp_bind. eapply wp_mono.
  { apply wp_and.
    - apply (keeps_wp (S (Some sq))); [apply keeps_verbatim_protein_ids_py3; pick | exact S1].
    - apply (keeps_wp (D (Some text))); [apply keeps_verbatim_protein_ids_py3; pick | exact D1]. }
  cbv beta. intros [] s2 (S2 & D2).
  apply wp_bind, wp_fetch. intros i gc [= <-] Hgc.
  apply wp_bind, wp_set_data.
  set (s3 := WState _ _).
  assert (S3 : S (Some sq) (data s3)).
  { subst s3 S. cbn [data logged trace]. by rewrite lookup_insert_ne. }
  assert (D3 : D (Some text) (data s3)).
  { subst s3 D. cbn [data logged trace]. by rewrite lookup_insert_ne. }
  assert (C3 : C (Some gc) (data s3)) by apply lookup_insert_eq.
  clearbody s3.
  eapply wp_mono.
  { apply wp_and; [|apply wp_and].
    - apply (keeps_wp (S (Some sq))); [apply keeps_verbatim_tail_py3; pick | exact S3].
    - apply (keeps_wp (D (Some text))); [apply keeps_verbatim_tail_py3; pick | exact D3].
    - apply (keeps_wp (C (Some gc))); [apply keeps_verbatim_tail_py3; pick | exact C3]. }
  cbv beta. intros [] s4 (S4 & D4 & C4).
  split; [by exists sq | split; [by exists d, text | by exists gc]].
Qed.

End Verbatim.

(** In a record the constructor returns, [sequence_name] is what the
    [sequence_name] lookup returned and [description] is the [text] member
    of what the [concise_description] lookup returned, which therefore had
    one.  In python2/WormCSV.py [gene_class] is the label of the tag of the
    [gene_class] answer, and the record has no such field when the answer
    has no tag with a label; in python3/WormCSV.py it is the answer itself. *)
Theorem verbatim_fields net database dbId geneID s s' :
  (String.prefix "WBGene" geneID = true ->
   WormData net database dbId geneID s = (Ok tt, s') ->
     sequence_field net geneID (describe s')
     /\ description_field net geneID (describe s')
     /\ exists geneClass o,
          response net GENE_BASE (VStr geneID) "gene_class" = Ok geneClass
          /\ class_label geneClass = Ok o
          /\ describe s' !! "gene_class" = o)
  /\ (Py3.WormData net database dbId geneID s = (Ok tt, s') ->
     sequence_field net geneID (describe s')
     /\ description_field net geneID (describe s')
     /\ exists geneClass,
          response net GENE_BASE (VStr geneID) "gene_class" = Ok geneClass
          /\ describe s' !! "gene_class" = Some geneClass).
Proof.
  split.
  - intros Hp Hrun. unfold WormData in Hrun.
    apply bind_ok in Hrun as ([] & s1 & [= <-] & Hrun).
    refine (populate_verbatim net database geneID dbId _ Hp _ tt s' Hrun).
    cbn [data]. by rewrite lookup_insert_ne.
  - intros Hrun. unfold Py3.WormData in Hrun.
    apply bind_ok in Hrun as ([] & s1 & [= <-] & Hrun).
    exact (populate_verbatim_py3 net database geneID dbId _ tt s' Hrun).
Qed.

Lemma verbatim_fields_witness :
  describe (snd (WormData nested ∅ None "WBGene00001234" (WState [] ∅))) !! "gene_class"
  = Some (VDict [("id", VStr "abc")]).
Proof.
  destruct (verbatim_fields nested ∅ None "WBGene00001234" (WState [] ∅)
              (snd (WormData nested ∅ None "WBGene00001234" (WState [] ∅))))
    as [H _].
  destruct (H eq_refl ltac:(by vm_compute)) as (_ & _ & gc & o & Hgc & Ho & Hc).
  rewrite Hc. vm_compute in Hgc. injection Hgc as <-. vm_compute in Ho. congruence.
Defined.

(** ** python3/WormCSV.py: what a returned constructor needed *)

Section Py3Needs.

Variable net : string -> reply.
Variable database : gmap string (gmap string string).

Lemma wp_up_down_py3 xlocID (s : wstate) :
  wp (Py3.up_down database xlocID)
     (fun _ _ => exists i row c, xlocID = Some i /\ get database i = Some row
                                 /\ row !! "log2(fold_change)" = Some c) s.
Proof.
  unfold Py3.up_down. destruct xlocID as [i|]; [|apply wp_raise].
  destruct (get database i) as [row|] eqn:Hrow; [|apply wp_raise].
  destruct (row !! "log2(fold_change)") as [c|] eqn:E; [|apply wp_raise].
  apply wp_set_data. by exists i, row, c.
Qed.

Lemma wp_best_human_ortholog_py3_some ps s :
  data s !! "protein_id" = Some (joined ps) ->
  wp (Py3.best_human_ortholog net) (fun _ _ => ps <> []) s.
Proof.
  intros Hps. unfold Py3.best_human_ortholog.
  apply wp_bind, wp_set_data.
  set (s1 := WState _ _).
  assert (Hps1 : data s1 !! "protein_id" = Some (joined ps))
    by (subst s1; cbn [data]; by rewrite lookup_insert_ne).
  clearbody s1.
  apply wp_bind, wp_get_data. intros p Hp. rewrite Hps1 in Hp. injection Hp as <-.
  destruct ps as [|p ps]; [|intros ? ? _; discriminate].
  cbn [joined Py3.has_len isinstance_str negb andb].
  apply wp_bind, wp_bind, wp_get_data. intros v Hv. rewrite Hps1 in Hv. injection Hv as <-.
  apply wp_bind, wp_lift. intros ? [=].
Qed.

Lemma populate_py3_needs xlocID geneID s :
  wp (Py3.populate net database xlocID geneID)
     (fun _ _ =>
        (exists i row c, xlocID = Some i /\ get database i = Some row
                         /\ row !! "log2(fold_change)" = Some c)
        /\ exists geneModels ps,
             response net GENE_BASE (VStr geneID) "gene_models" = Ok geneModels
             /\ proteins geneModels = Ok (map VStr ps) /\ ps <> []) s.
Proof.
  unfold Py3.populate.
  apply wp_bind. eapply wp_mono; [apply wp_up_down_py3|].
  cbv beta. intros [] s0 Hrow.
  do 5 skip.
  apply wp_bind. eapply wp_mono; [apply wp_protein_ids_py3|]. cbv beta.
  intros [] s1 (gm & ps & Hgm & Hids & H1).
  pose (P := fun d : gmap string value => d !! "protein_id" = Some (joined ps)).
  apply wp_bind. eapply wp_mono; [apply (keeps_wp P); [keeps_populate | exact H1]|].
  cbv beta. intros gc s2 H2.
  apply wp_bind. eapply wp_mono; [apply (keeps_wp P); [keeps_populate | exact H2]|].
  cbv beta. intros [] s3 H3.
  apply wp_bind. eapply wp_mono; [apply (keeps_wp P); [keeps_populate | exact H3]|].
  cbv beta. intros [] s4 H4.
  apply wp_bind. eapply wp_mono; [apply (keeps_wp P); [keeps_populate | exact H4]|].
  cbv beta. intros [] s5 H5.
  apply wp_bind. eapply wp_mono; [apply (keeps_wp P); [keeps_populate | exact H5]|].
  cbv beta. intros [] s6 H6.
  eapply wp_mono; [by apply (wp_best_human_ortholog_py3_some ps)|].
  cbv beta. intros [] s7 Hne. split; [exact Hrow | by exists gm, ps].
Qed.

End Py3Needs.

(** python3/WormCSV.py: the constructor returns only when it was given a
    record identifier whose row in the store has a [log2(fold_change)]
    cell, and when the [gene_models] answer lists at least one protein
    identifier: without one [protein_id] is [None] and the loop over it
    raises. *)
Theorem WormData_py3_needs net database xlocID geneID s s' :
  Py3.WormData net database xlocID geneID s = (Ok tt, s') ->
  (exists i row c, xlocID = Some i /\ get database i = Some row
                   /\ row !! "log2(fold_change)" = Some c)
  /\ exists geneModels ps,
       response net GENE_BASE (VStr geneID) "gene_models" = Ok geneModels
       /\ proteins geneModels = Ok (map VStr ps) /\ ps <> [].
Proof.
  intros Hrun. unfold Py3.WormData in Hrun.
  apply bind_ok in Hrun as ([] & s1 & [= <-] & Hrun).
  exact (populate_py3_needs net database xlocID geneID _ tt s' Hrun).
Qed.

Lemma WormData_py3_needs_witness :
  (exists i row c, Some "XLOC_000001" = Some i /\ get one_row i = Some row
                   /\ row !! "log2(fold_change)" = Some c)
  /\ exists geneModels ps,
       response (server [protein_row "P"]) GENE_BASE (VStr "WBGene00001234")
         "gene_models" = Ok geneModels
       /\ proteins geneModels = Ok (map VStr ps) /\ ps <> [].
Proof.
  apply (WormData_py3_needs (server [protein_row "P"]) one_row (Some "XLOC_000001")
           "WBGene00001234" (WState [] ∅)
           (snd (Py3.WormData (server [protein_row "P"]) one_row (Some "XLOC_000001")
                   "WBGene00001234" (WState [] ∅)))).
  by vm_compute.
Defined.

(** ** WormData.joinIfExtant, called again *)

(** on a field that holds a string, [joinIfExtant] joins its characters *)
Lemma joinIfExtant_on_str (datum str : string) (s : wstate) :
  data s !! datum = Some (VStr str) ->
  joinIfExtant datum s
  = (Ok tt, WState (trace s) (<[datum := joined (chars str)]> (data s))).
Proof.
  intros Hd. unfold joinIfExtant, bind, get_data, lift, set_data.
  rewrite Hd. cbn [len].
  destruct (chars str) as [|x l] eqn:E; [reflexivity|].
  cbn [length Nat.eqb]. rewrite Hd. unfold join. cbn [iterate]. rewrite E.
  by rewrite strings_of_map.
Qed.

(** [joinIfExtant] is made to be called once per field.  Called a second
    time on a field that held a list of strings, it raises [TypeError] when
    the list was empty (the field is [None] by then), and otherwise joins
    the characters of the text it had made, one code point each, leaving
    [None] when that text is empty. *)
Theorem joinIfExtant_twice (datum : string) (entries : list string) (s : wstate) :
  data s !! datum = Some (VList (map VStr entries)) ->
  (joinIfExtant datum ;;; joinIfExtant datum) s
  = match entries with
    | [] => (Raise TypeError, WState (trace s) (<[datum := VNone]> (data s)))
    | _ :: _ =>
        (Ok tt, WState (trace s)
                  (<[datum := joined (chars (String.concat ", " entries))]> (data s)))
    end.
Proof.
  intros Hd. unfold bind at 1. rewrite (joinIfExtant_run datum entries s Hd).
  destruct entries as [|e entries].
  - cbn [joined]. unfold joinIfExtant, bind, get_data, lift. cbn [data trace].
    by rewrite lookup_insert_eq.
  - cbn [joined]. rewrite (joinIfExtant_on_str datum (String.concat ", " (e :: entries)));
      [|apply lookup_insert_eq].
    cbn [trace data]. by rewrite insert_insert_eq.
Qed.

Lemma joinIfExtant_twice_witness :
  (joinIfExtant "protein_id" ;;; joinIfExtant "protein_id")
    (WState [] {[ "protein_id" := VList [VStr "P"; VStr "Q"] ]})
  = (Ok tt, WState [] {[ "protein_id" := VStr "P, ,,  , Q" ]})
  /\ (joinIfExtant "description" ;;; joinIfExtant "description")
       (WState [] {[ "description" := VList [VStr "é"] ]})
     = (Ok tt, WState [] {[ "description" := VStr "é" ]}).
Proof.
  assert (H : data (WState [] {[ "protein_id" := VList [VStr "P"; VStr "Q"] ]})
                !! "protein_id" = Some (VList (map VStr ["P"; "Q"]))) by by vm_compute.
  assert (H' : data (WState [] {[ "description" := VList [VStr "é"] ]})
                 !! "description" = Some (VList (map VStr ["é"]))) by by vm_compute.
  rewrite (joinIfExtant_twice "protein_id" ["P"; "Q"] _ H).
  rewrite (joinIfExtant_twice "description" ["é"] _ H').
  split; by vm_compute.
Defined.

(** ** OutputCSV.write, on a header that has lost its columns *)

(** python2/WormCSV.py: when no record has an [XLOC] identifier, [write]
    takes the two columns out without asking whether they are there.  On a
    header without [db_id] it raises [ValueError] and leaves the list as it
    is; on a header with [db_id] and without [up/down] it raises
    [ValueError] after it has taken [db_id] out of the caller's list.  No
    file is opened in either case. *)
Theorem write_missing_column can_open self ws (w : world) hs :
  lists w !! headers self = Some hs ->
  Forall db_id_is_str ws -> Forall (fun w => ~ uses_XLOC w) ws ->
  (~ In "db_id" hs -> write can_open self ws w = (Raise ValueError, w))
  /\ (In "db_id" hs -> ~ In "up/down" hs ->
      write can_open self ws w
      = (Raise ValueError,
         World (<[headers self := drop_first "db_id" hs]> (lists w)) (files w))).
Proof.
  intros Hh Hstr Hno. pose proof (no_XLOC_scan ws Hstr Hno) as Hb. split.
  - by apply write_without_db_id.
  - by apply write_without_up_down.
Qed.

Lemma write_missing_column_witness :
  write any_path (OutputCSV "out.csv" 0) [ {[ "gene_id" := VStr "WBGene00001234" ]} ]
    (only_list 0 ["gene_id"; "db_id"])
  = (Raise ValueError, World (<[ 0 := ["gene_id"] ]> {[ 0 := ["gene_id"; "db_id"] ]}) ∅).
Proof.
  refine (proj2 (write_missing_column any_path (OutputCSV "out.csv" 0)
            [ {[ "gene_id" := VStr "WBGene00001234" ]} ]
            (only_list 0 ["gene_id"; "db_id"]) ["gene_id"; "db_id"] _ _ _) _ _).
  - reflexivity.
  - constructor; [|constructor]. intros v Hv. vm_compute in Hv. congruence.
  - constructor; [|constructor]. intros (i & Hi & _). vm_compute in Hi. congruence.
  - simpl. tauto.
  - simpl. intuition discriminate.
Defined.
